(** * The Piwik tracker (piwikapi/tracking.py): request construction and dispatch

    A shallow embedding of class [PiwikTracker]: the tracking context is a
    record, every method is a computation in a state-and-exception monad
    over a world made of the tracker object, the position in the random
    generator's output and the log of requests handed to the HTTP transport.

    The methods are modelled one by one from their bodies, each statement
    in its place. Left out are [set_attribution_info], whose dictionary
    display is written with [=] where [:] belongs; [set_user_id], which
    rests on [pycompat.is_string]; the random visitor id, which rests on
    [md5] and [os.urandom]; and the cookie helpers marked unsupported and
    [__get_url_track_content], which nothing calls.

    Python dictionaries keep insertion order, and both the query string and
    the JSON encodings follow that order, so dictionaries are association
    lists updated the way [d[k] = v] does it. *)

From Stdlib Require Import ZArith String List Bool Lia DecimalString.
Import ListNotations.
Open Scope string_scope.
Open Scope Z_scope.

(** ** Insertion-ordered dictionaries *)

Class Key (K : Type) := {
  key_eqb : K -> K -> bool;
  key_eqb_spec : forall a b, reflect (a = b) (key_eqb a b)
}.

#[export] Instance string_Key : Key string :=
  {| key_eqb := String.eqb; key_eqb_spec := String.eqb_spec |}.

#[export] Instance Z_Key : Key Z :=
  {| key_eqb := Z.eqb; key_eqb_spec := Z.eqb_spec |}.

Module PyDict.
Section Dict.
Context {K V : Type} `{Key K}.

Definition t := list (K * V).

Definition empty : t := [].

(** [d[k]] as a lookup, [None] when the key is missing *)
Fixpoint get (k : K) (d : t) : option V :=
  match d with
  | [] => None
  | (k', v) :: d' => if key_eqb k k' then Some v else get k d'
  end.

(** [d[k] = v]: an existing key keeps its place, a new one goes last *)
Fixpoint set (k : K) (v : V) (d : t) : t :=
  match d with
  | [] => [(k, v)]
  | (k', v') :: d' =>
      if key_eqb k k' then (k', v) :: d' else (k', v') :: set k v d'
  end.

Definition mem (k : K) (d : t) : bool :=
  match get k d with Some _ => true | None => false end.

Definition len (d : t) : Z := Z.of_nat (length d).

Definition keys (d : t) : list K := map fst d.

Definition values (d : t) : list V := map snd d.

(** [for k, v in src.items(): d[k] = v] *)
Definition update (src : t) (d : t) : t :=
  fold_left (fun acc kv => set (fst kv) (snd kv) acc) src d.
End Dict.
Arguments t : clear implicits.
End PyDict.

Abbreviation pydict := PyDict.t.

(** ** Python values *)

(** What the tracker reads of a [datetime.datetime] object: the clock
    fields, and the POSIX time in microseconds from which [timestamp()] is
    computed. *)
Record datetime := {
  dt_hour : Z;
  dt_minute : Z;
  dt_second : Z;
  dt_posix_us : Z
}.

#[warnings="-register-all"]
Inductive pyval :=
| VNone
| VBool (b : bool)
| VInt (z : Z)
| VStr (s : string)
| VDatetime (d : datetime)
| VTuple (l : list pyval)
| VList (l : list pyval)
| VDict (l : list (pyval * pyval)).

(** Exceptions, by class *)
Inductive exn :=
| AttributeError (attr : string)
| NameError (name : string)
| KeyError (key : string)
| TypeError
| InvalidParameter
| ConfigurationError
| TransportFailure.

Inductive outcome (A : Type) :=
| Ok (a : A)
| Raise (e : exn).
Arguments Ok {A} a.
Arguments Raise {A} e.

(** [x is not None] *)
Definition is_not_none (v : pyval) : bool :=
  match v with VNone => false | _ => true end.

(** [bool(x)], as [if x:] tests it *)
Definition truthy (v : pyval) : bool :=
  match v with
  | VNone => false
  | VBool b => b
  | VInt z => negb (z =? 0)
  | VStr s => negb (s =? EmptyString)%string
  | VDatetime _ => true
  | VTuple l | VList l => negb (Nat.eqb (length l) 0)
  | VDict l => negb (Nat.eqb (length l) 0)
  end.

(** [x is True] *)
Definition is_True (v : pyval) : bool :=
  match v with VBool true => true | _ => false end.

(** [len(x)] *)
Definition py_len (v : pyval) : outcome Z :=
  match v with
  | VStr s => Ok (Z.of_nat (String.length s))
  | VTuple l | VList l => Ok (Z.of_nat (length l))
  | VDict l => Ok (Z.of_nat (length l))
  | _ => Raise TypeError
  end.

(** [type(x) != type(int())]: [bool] is another type than [int] *)
Definition type_is_int (v : pyval) : bool :=
  match v with VInt _ => true | _ => false end.

Definition str_of_Z (z : Z) : string := NilZero.string_of_int (Z.to_int z).

(** one [%d] conversion of the [%] operator *)
Definition format_d (v : pyval) : outcome string :=
  match v with
  | VInt z => Ok (str_of_Z z)
  | VBool b => Ok (if b then "1" else "0")
  | _ => Raise TypeError
  end.

(** attributes and methods of a datetime object *)
Definition attr_hour (v : pyval) : outcome pyval :=
  match v with VDatetime d => Ok (VInt (dt_hour d)) | _ => Raise (AttributeError "hour") end.

Definition attr_minute (v : pyval) : outcome pyval :=
  match v with VDatetime d => Ok (VInt (dt_minute d)) | _ => Raise (AttributeError "minute") end.

Definition attr_second (v : pyval) : outcome pyval :=
  match v with VDatetime d => Ok (VInt (dt_second d)) | _ => Raise (AttributeError "second") end.

(** [math.floor(x.timestamp())] *)
Definition floor_timestamp (v : pyval) : outcome pyval :=
  match v with
  | VDatetime d => Ok (VInt (dt_posix_us d / 1000000))
  | _ => Raise (AttributeError "timestamp")
  end.

(** [d[k]] on a dictionary with string keys *)
Definition getitem {V : Type} (k : string) (d : pydict string V) : outcome V :=
  match PyDict.get k d with Some v => Ok v | None => Raise (KeyError k) end.

(** ** State and exceptions *)

(** A computation reads and writes a state and returns or raises; what it
    wrote before raising stays written. *)
Definition Py (S A : Type) : Type := S -> outcome A * S.

Definition ret {S A : Type} (a : A) : Py S A := fun s => (Ok a, s).

Definition raise {S A : Type} (e : exn) : Py S A := fun s => (Raise e, s).

Definition bind {S A B : Type} (m : Py S A) (f : A -> Py S B) : Py S B :=
  fun s =>
    match m s with
    | (Ok a, s') => f a s'
    | (Raise e, s') => (Raise e, s')
    end.

Definition lift {S A : Type} (o : outcome A) : Py S A := fun s => (o, s).

Definition gets {S A : Type} (f : S -> A) : Py S A := fun s => (Ok (f s), s).

Definition modify {S : Type} (f : S -> S) : Py S unit := fun s => (Ok tt, f s).

Declare Scope py_scope.
Delimit Scope py_scope with py.
Notation "x <- m ;; k" := (bind m (fun x => k))
  (at level 61, m at next level, right associativity) : py_scope.
Notation "m ;;; k" := (bind m (fun _ => k))
  (at level 61, right associativity) : py_scope.
Open Scope py_scope.

(** ** The tracker object *)

(** The attributes of a [PiwikTracker] instance. An attribute that holds
    [None] or a value is a [pyval]; the dictionaries are only ever assigned
    dictionaries; [request_cookies] is [None] or a dictionary.
    [referer] and [ecommerce_last_order_timestamp] are neither class
    attributes nor assigned by [__init__]: they are absent ([None] here)
    until [set_url_referer], respectively the order builder, assigns them. *)
Record PiwikTracker := {
  action_name : pyval;
  ecommerce_items : pydict string pyval;
  id_site : pyval;
  api_url : pyval;
  request_cookies : option (pydict string pyval);
  user_agent : pyval;
  accept_language : pyval;
  ip : pyval;
  token_auth : pyval;
  forced_datetime : pyval;
  local_time : pyval;
  page_url : pyval;
  cookie_support : bool;
  has_cookies : bool;
  width : pyval;
  height : pyval;
  visitor_id : pyval;
  debug_append_url : bool;
  event_custom_var : pydict Z (pyval * pyval);
  page_custom_var : pydict Z (pyval * pyval);
  visitor_custom_var : pydict Z (pyval * pyval);
  event_tracking : pydict string pyval;
  dimensions : pydict string pyval;
  plugins : pydict string Z;
  attribution_info : pydict string pyval;
  user_id : pyval;
  send_image : pyval;
  id_goal : pyval;
  revenue : pyval;
  debug : pyval;
  ssl_verify : pyval;
  referer : option pyval;
  ecommerce_last_order_timestamp : option pyval
}.

(** Attribute assignment [self.a = x], for the attributes the methods below assign *)
Definition assign_action_name (x : pyval) (t : PiwikTracker) : PiwikTracker :=
  {| action_name := x; ecommerce_items := ecommerce_items t; id_site := id_site t;
     api_url := api_url t; request_cookies := request_cookies t; user_agent := user_agent t;
     accept_language := accept_language t; ip := ip t; token_auth := token_auth t;
     forced_datetime := forced_datetime t; local_time := local_time t; page_url := page_url t;
     cookie_support := cookie_support t; has_cookies := has_cookies t; width := width t;
     height := height t; visitor_id := visitor_id t; debug_append_url := debug_append_url t;
     event_custom_var := event_custom_var t; page_custom_var := page_custom_var t;
     visitor_custom_var := visitor_custom_var t; event_tracking := event_tracking t;
     dimensions := dimensions t; plugins := plugins t; attribution_info := attribution_info t;
     user_id := user_id t; send_image := send_image t; id_goal := id_goal t;
     revenue := revenue t; debug := debug t; ssl_verify := ssl_verify t; referer := referer t;
     ecommerce_last_order_timestamp := ecommerce_last_order_timestamp t |}.

Definition assign_ecommerce_items (x : pydict string pyval) (t : PiwikTracker) : PiwikTracker :=
  {| action_name := action_name t; ecommerce_items := x; id_site := id_site t;
     api_url := api_url t; request_cookies := request_cookies t; user_agent := user_agent t;
     accept_language := accept_language t; ip := ip t; token_auth := token_auth t;
     forced_datetime := forced_datetime t; local_time := local_time t; page_url := page_url t;
     cookie_support := cookie_support t; has_cookies := has_cookies t; width := width t;
     height := height t; visitor_id := visitor_id t; debug_append_url := debug_append_url t;
     event_custom_var := event_custom_var t; page_custom_var := page_custom_var t;
     visitor_custom_var := visitor_custom_var t; event_tracking := event_tracking t;
     dimensions := dimensions t; plugins := plugins t; attribution_info := attribution_info t;
     user_id := user_id t; send_image := send_image t; id_goal := id_goal t;
     revenue := revenue t; debug := debug t; ssl_verify := ssl_verify t; referer := referer t;
     ecommerce_last_order_timestamp := ecommerce_last_order_timestamp t |}.

Definition assign_api_url (x : pyval) (t : PiwikTracker) : PiwikTracker :=
  {| action_name := action_name t; ecommerce_items := ecommerce_items t; id_site := id_site t;
     api_url := x; request_cookies := request_cookies t; user_agent := user_agent t;
     accept_language := accept_language t; ip := ip t; token_auth := token_auth t;
     forced_datetime := forced_datetime t; local_time := local_time t; page_url := page_url t;
     cookie_support := cookie_support t; has_cookies := has_cookies t; width := width t;
     height := height t; visitor_id := visitor_id t; debug_append_url := debug_append_url t;
     event_custom_var := event_custom_var t; page_custom_var := page_custom_var t;
     visitor_custom_var := visitor_custom_var t; event_tracking := event_tracking t;
     dimensions := dimensions t; plugins := plugins t; attribution_info := attribution_info t;
     user_id := user_id t; send_image := send_image t; id_goal := id_goal t;
     revenue := revenue t; debug := debug t; ssl_verify := ssl_verify t; referer := referer t;
     ecommerce_last_order_timestamp := ecommerce_last_order_timestamp t |}.

Definition assign_page_url (x : pyval) (t : PiwikTracker) : PiwikTracker :=
  {| action_name := action_name t; ecommerce_items := ecommerce_items t; id_site := id_site t;
     api_url := api_url t; request_cookies := request_cookies t; user_agent := user_agent t;
     accept_language := accept_language t; ip := ip t; token_auth := token_auth t;
     forced_datetime := forced_datetime t; local_time := local_time t; page_url := x;
     cookie_support := cookie_support t; has_cookies := has_cookies t; width := width t;
     height := height t; visitor_id := visitor_id t; debug_append_url := debug_append_url t;
     event_custom_var := event_custom_var t; page_custom_var := page_custom_var t;
     visitor_custom_var := visitor_custom_var t; event_tracking := event_tracking t;
     dimensions := dimensions t; plugins := plugins t; attribution_info := attribution_info t;
     user_id := user_id t; send_image := send_image t; id_goal := id_goal t;
     revenue := revenue t; debug := debug t; ssl_verify := ssl_verify t; referer := referer t;
     ecommerce_last_order_timestamp := ecommerce_last_order_timestamp t |}.

Definition assign_visitor_id (x : pyval) (t : PiwikTracker) : PiwikTracker :=
  {| action_name := action_name t; ecommerce_items := ecommerce_items t; id_site := id_site t;
     api_url := api_url t; request_cookies := request_cookies t; user_agent := user_agent t;
     accept_language := accept_language t; ip := ip t; token_auth := token_auth t;
     forced_datetime := forced_datetime t; local_time := local_time t; page_url := page_url t;
     cookie_support := cookie_support t; has_cookies := has_cookies t; width := width t;
     height := height t; visitor_id := x; debug_append_url := debug_append_url t;
     event_custom_var := event_custom_var t; page_custom_var := page_custom_var t;
     visitor_custom_var := visitor_custom_var t; event_tracking := event_tracking t;
     dimensions := dimensions t; plugins := plugins t; attribution_info := attribution_info t;
     user_id := user_id t; send_image := send_image t; id_goal := id_goal t;
     revenue := revenue t; debug := debug t; ssl_verify := ssl_verify t; referer := referer t;
     ecommerce_last_order_timestamp := ecommerce_last_order_timestamp t |}.

Definition assign_event_custom_var (x : pydict Z (pyval * pyval)) (t : PiwikTracker) : PiwikTracker :=
  {| action_name := action_name t; ecommerce_items := ecommerce_items t; id_site := id_site t;
     api_url := api_url t; request_cookies := request_cookies t; user_agent := user_agent t;
     accept_language := accept_language t; ip := ip t; token_auth := token_auth t;
     forced_datetime := forced_datetime t; local_time := local_time t; page_url := page_url t;
     cookie_support := cookie_support t; has_cookies := has_cookies t; width := width t;
     height := height t; visitor_id := visitor_id t; debug_append_url := debug_append_url t;
     event_custom_var := x; page_custom_var := page_custom_var t;
     visitor_custom_var := visitor_custom_var t; event_tracking := event_tracking t;
     dimensions := dimensions t; plugins := plugins t; attribution_info := attribution_info t;
     user_id := user_id t; send_image := send_image t; id_goal := id_goal t;
     revenue := revenue t; debug := debug t; ssl_verify := ssl_verify t; referer := referer t;
     ecommerce_last_order_timestamp := ecommerce_last_order_timestamp t |}.

Definition assign_page_custom_var (x : pydict Z (pyval * pyval)) (t : PiwikTracker) : PiwikTracker :=
  {| action_name := action_name t; ecommerce_items := ecommerce_items t; id_site := id_site t;
     api_url := api_url t; request_cookies := request_cookies t; user_agent := user_agent t;
     accept_language := accept_language t; ip := ip t; token_auth := token_auth t;
     forced_datetime := forced_datetime t; local_time := local_time t; page_url := page_url t;
     cookie_support := cookie_support t; has_cookies := has_cookies t; width := width t;
     height := height t; visitor_id := visitor_id t; debug_append_url := debug_append_url t;
     event_custom_var := event_custom_var t; page_custom_var := x;
     visitor_custom_var := visitor_custom_var t; event_tracking := event_tracking t;
     dimensions := dimensions t; plugins := plugins t; attribution_info := attribution_info t;
     user_id := user_id t; send_image := send_image t; id_goal := id_goal t;
     revenue := revenue t; debug := debug t; ssl_verify := ssl_verify t; referer := referer t;
     ecommerce_last_order_timestamp := ecommerce_last_order_timestamp t |}.

Definition assign_visitor_custom_var (x : pydict Z (pyval * pyval)) (t : PiwikTracker) : PiwikTracker :=
  {| action_name := action_name t; ecommerce_items := ecommerce_items t; id_site := id_site t;
     api_url := api_url t; request_cookies := request_cookies t; user_agent := user_agent t;
     accept_language := accept_language t; ip := ip t; token_auth := token_auth t;
     forced_datetime := forced_datetime t; local_time := local_time t; page_url := page_url t;
     cookie_support := cookie_support t; has_cookies := has_cookies t; width := width t;
     height := height t; visitor_id := visitor_id t; debug_append_url := debug_append_url t;
     event_custom_var := event_custom_var t; page_custom_var := page_custom_var t;
     visitor_custom_var := x; event_tracking := event_tracking t; dimensions := dimensions t;
     plugins := plugins t; attribution_info := attribution_info t; user_id := user_id t;
     send_image := send_image t; id_goal := id_goal t; revenue := revenue t; debug := debug t;
     ssl_verify := ssl_verify t; referer := referer t;
     ecommerce_last_order_timestamp := ecommerce_last_order_timestamp t |}.

Definition assign_dimensions (x : pydict string pyval) (t : PiwikTracker) : PiwikTracker :=
  {| action_name := action_name t; ecommerce_items := ecommerce_items t; id_site := id_site t;
     api_url := api_url t; request_cookies := request_cookies t; user_agent := user_agent t;
     accept_language := accept_language t; ip := ip t; token_auth := token_auth t;
     forced_datetime := forced_datetime t; local_time := local_time t; page_url := page_url t;
     cookie_support := cookie_support t; has_cookies := has_cookies t; width := width t;
     height := height t; visitor_id := visitor_id t; debug_append_url := debug_append_url t;
     event_custom_var := event_custom_var t; page_custom_var := page_custom_var t;
     visitor_custom_var := visitor_custom_var t; event_tracking := event_tracking t;
     dimensions := x; plugins := plugins t; attribution_info := attribution_info t;
     user_id := user_id t; send_image := send_image t; id_goal := id_goal t;
     revenue := revenue t; debug := debug t; ssl_verify := ssl_verify t; referer := referer t;
     ecommerce_last_order_timestamp := ecommerce_last_order_timestamp t |}.

Definition assign_plugins (x : pydict string Z) (t : PiwikTracker) : PiwikTracker :=
  {| action_name := action_name t; ecommerce_items := ecommerce_items t; id_site := id_site t;
     api_url := api_url t; request_cookies := request_cookies t; user_agent := user_agent t;
     accept_language := accept_language t; ip := ip t; token_auth := token_auth t;
     forced_datetime := forced_datetime t; local_time := local_time t; page_url := page_url t;
     cookie_support := cookie_support t; has_cookies := has_cookies t; width := width t;
     height := height t; visitor_id := visitor_id t; debug_append_url := debug_append_url t;
     event_custom_var := event_custom_var t; page_custom_var := page_custom_var t;
     visitor_custom_var := visitor_custom_var t; event_tracking := event_tracking t;
     dimensions := dimensions t; plugins := x; attribution_info := attribution_info t;
     user_id := user_id t; send_image := send_image t; id_goal := id_goal t;
     revenue := revenue t; debug := debug t; ssl_verify := ssl_verify t; referer := referer t;
     ecommerce_last_order_timestamp := ecommerce_last_order_timestamp t |}.

Definition assign_send_image (x : pyval) (t : PiwikTracker) : PiwikTracker :=
  {| action_name := action_name t; ecommerce_items := ecommerce_items t; id_site := id_site t;
     api_url := api_url t; request_cookies := request_cookies t; user_agent := user_agent t;
     accept_language := accept_language t; ip := ip t; token_auth := token_auth t;
     forced_datetime := forced_datetime t; local_time := local_time t; page_url := page_url t;
     cookie_support := cookie_support t; has_cookies := has_cookies t; width := width t;
     height := height t; visitor_id := visitor_id t; debug_append_url := debug_append_url t;
     event_custom_var := event_custom_var t; page_custom_var := page_custom_var t;
     visitor_custom_var := visitor_custom_var t; event_tracking := event_tracking t;
     dimensions := dimensions t; plugins := plugins t; attribution_info := attribution_info t;
     user_id := user_id t; send_image := x; id_goal := id_goal t; revenue := revenue t;
     debug := debug t; ssl_verify := ssl_verify t; referer := referer t;
     ecommerce_last_order_timestamp := ecommerce_last_order_timestamp t |}.

Definition assign_id_goal (x : pyval) (t : PiwikTracker) : PiwikTracker :=
  {| action_name := action_name t; ecommerce_items := ecommerce_items t; id_site := id_site t;
     api_url := api_url t; request_cookies := request_cookies t; user_agent := user_agent t;
     accept_language := accept_language t; ip := ip t; token_auth := token_auth t;
     forced_datetime := forced_datetime t; local_time := local_time t; page_url := page_url t;
     cookie_support := cookie_support t; has_cookies := has_cookies t; width := width t;
     height := height t; visitor_id := visitor_id t; debug_append_url := debug_append_url t;
     event_custom_var := event_custom_var t; page_custom_var := page_custom_var t;
     visitor_custom_var := visitor_custom_var t; event_tracking := event_tracking t;
     dimensions := dimensions t; plugins := plugins t; attribution_info := attribution_info t;
     user_id := user_id t; send_image := send_image t; id_goal := x; revenue := revenue t;
     debug := debug t; ssl_verify := ssl_verify t; referer := referer t;
     ecommerce_last_order_timestamp := ecommerce_last_order_timestamp t |}.

Definition assign_revenue (x : pyval) (t : PiwikTracker) : PiwikTracker :=
  {| action_name := action_name t; ecommerce_items := ecommerce_items t; id_site := id_site t;
     api_url := api_url t; request_cookies := request_cookies t; user_agent := user_agent t;
     accept_language := accept_language t; ip := ip t; token_auth := token_auth t;
     forced_datetime := forced_datetime t; local_time := local_time t; page_url := page_url t;
     cookie_support := cookie_support t; has_cookies := has_cookies t; width := width t;
     height := height t; visitor_id := visitor_id t; debug_append_url := debug_append_url t;
     event_custom_var := event_custom_var t; page_custom_var := page_custom_var t;
     visitor_custom_var := visitor_custom_var t; event_tracking := event_tracking t;
     dimensions := dimensions t; plugins := plugins t; attribution_info := attribution_info t;
     user_id := user_id t; send_image := send_image t; id_goal := id_goal t; revenue := x;
     debug := debug t; ssl_verify := ssl_verify t; referer := referer t;
     ecommerce_last_order_timestamp := ecommerce_last_order_timestamp t |}.

Definition assign_debug (x : pyval) (t : PiwikTracker) : PiwikTracker :=
  {| action_name := action_name t; ecommerce_items := ecommerce_items t; id_site := id_site t;
     api_url := api_url t; request_cookies := request_cookies t; user_agent := user_agent t;
     accept_language := accept_language t; ip := ip t; token_auth := token_auth t;
     forced_datetime := forced_datetime t; local_time := local_time t; page_url := page_url t;
     cookie_support := cookie_support t; has_cookies := has_cookies t; width := width t;
     height := height t; visitor_id := visitor_id t; debug_append_url := debug_append_url t;
     event_custom_var := event_custom_var t; page_custom_var := page_custom_var t;
     visitor_custom_var := visitor_custom_var t; event_tracking := event_tracking t;
     dimensions := dimensions t; plugins := plugins t; attribution_info := attribution_info t;
     user_id := user_id t; send_image := send_image t; id_goal := id_goal t;
     revenue := revenue t; debug := x; ssl_verify := ssl_verify t; referer := referer t;
     ecommerce_last_order_timestamp := ecommerce_last_order_timestamp t |}.

Definition assign_referer (x : option pyval) (t : PiwikTracker) : PiwikTracker :=
  {| action_name := action_name t; ecommerce_items := ecommerce_items t; id_site := id_site t;
     api_url := api_url t; request_cookies := request_cookies t; user_agent := user_agent t;
     accept_language := accept_language t; ip := ip t; token_auth := token_auth t;
     forced_datetime := forced_datetime t; local_time := local_time t; page_url := page_url t;
     cookie_support := cookie_support t; has_cookies := has_cookies t; width := width t;
     height := height t; visitor_id := visitor_id t; debug_append_url := debug_append_url t;
     event_custom_var := event_custom_var t; page_custom_var := page_custom_var t;
     visitor_custom_var := visitor_custom_var t; event_tracking := event_tracking t;
     dimensions := dimensions t; plugins := plugins t; attribution_info := attribution_info t;
     user_id := user_id t; send_image := send_image t; id_goal := id_goal t;
     revenue := revenue t; debug := debug t; ssl_verify := ssl_verify t; referer := x;
     ecommerce_last_order_timestamp := ecommerce_last_order_timestamp t |}.

Definition assign_ecommerce_last_order_timestamp (x : option pyval) (t : PiwikTracker) : PiwikTracker :=
  {| action_name := action_name t; ecommerce_items := ecommerce_items t; id_site := id_site t;
     api_url := api_url t; request_cookies := request_cookies t; user_agent := user_agent t;
     accept_language := accept_language t; ip := ip t; token_auth := token_auth t;
     forced_datetime := forced_datetime t; local_time := local_time t; page_url := page_url t;
     cookie_support := cookie_support t; has_cookies := has_cookies t; width := width t;
     height := height t; visitor_id := visitor_id t; debug_append_url := debug_append_url t;
     event_custom_var := event_custom_var t; page_custom_var := page_custom_var t;
     visitor_custom_var := visitor_custom_var t; event_tracking := event_tracking t;
     dimensions := dimensions t; plugins := plugins t; attribution_info := attribution_info t;
     user_id := user_id t; send_image := send_image t; id_goal := id_goal t;
     revenue := revenue t; debug := debug t; ssl_verify := ssl_verify t; referer := referer t;
     ecommerce_last_order_timestamp := x |}.

(** ** Transport and runtime *)

(** The value of the local variable [url] of the builders: [_get_request]
    returns a dictionary, [+=] with a string is defined on strings only. *)
Abbreviation query := (pydict string pyval).

Inductive urlval :=
| UDict (q : query)
| UStr (s : string).

(** [url += s] *)
Definition iadd_str (url : urlval) (s : string) : outcome urlval :=
  match url with
  | UStr u => Ok (UStr (u ++ s))
  | UDict _ => Raise TypeError
  end.

(** The GET request prepared by [_send_request] *)
Record http_request := {
  req_method : string;
  req_url : pyval;
  req_headers : pydict string pyval;
  req_cookies : pydict string pyval;
  req_params : urlval;
  req_verify : bool
}.

Record http_response := {
  status_code : Z;
  content : list Byte.byte;
  text : string
}.

(** The dictionary returned by [_send_request] *)
Record tracking_result := {
  body_bytes : list Byte.byte;
  body_str : string;
  status : Z;
  ok : bool;
  error : bool
}.

(** What the module imports and the tracker calls: the outputs of the
    [random] generator, [json.dumps] ([None] where it rejects its input),
    [urlencode], [pycompat.to_string],
    the clock read by [datetime.datetime.now()], and the [requests] session
    that prepares and sends a request and returns the response or raises. *)
Class Runtime := {
  draws : nat -> Z;
  json_dumps : pyval -> option string;
  urlencode : list (pyval * pyval) -> string;
  to_string : pyval -> string;
  now : datetime;
  perform_get : http_request -> outcome http_response
}.

(** The tracker, the number of draws taken from the generator so far, and
    the requests handed to the transport so far, oldest first. *)
Record world := {
  trk : PiwikTracker;
  rng_pos : nat;
  sent : list http_request
}.

Definition with_trk (f : PiwikTracker -> PiwikTracker) (w : world) : world :=
  {| trk := f (trk w); rng_pos := rng_pos w; sent := sent w |}.

(** Class constants *)
Definition VERSION : Z := 1.

Definition LENGTH_VISITOR_ID : Z := 16.

Definition KNOWN_PLUGINS : pydict string string :=
  [ ("flash", "fla"); ("java", "java"); ("director", "dir");
    ("quick_time", "qt"); ("real_player", "realp"); ("pdf", "pdf");
    ("windows_media", "wma"); ("gears", "gears"); ("silverlight", "ag") ].

(** [__init__(self, id_site)] *)
Definition init (site : pyval) : PiwikTracker :=
  {| action_name := VNone;
     ecommerce_items := [];
     id_site := site;
     api_url := VNone;
     request_cookies := None;
     user_agent := VNone;
     accept_language := VNone;
     ip := VNone;
     token_auth := VNone;
     forced_datetime := VNone;
     local_time := VNone;
     page_url := VNone;
     cookie_support := true;
     has_cookies := false;
     width := VNone;
     height := VNone;
     visitor_id := VNone;
     debug_append_url := false;
     event_custom_var := [];
     page_custom_var := [];
     visitor_custom_var := [];
     event_tracking := [];
     dimensions := [];
     plugins := [];
     attribution_info := [];
     user_id := VNone;
     send_image := VBool false;
     id_goal := VNone;
     revenue := VNone;
     debug := VBool false;
     ssl_verify := VBool true;
     referer := None;
     ecommerce_last_order_timestamp := None |}.

(** A program that has just constructed its tracker *)
Definition fresh (site : pyval) : world :=
  {| trk := init site; rng_pos := 0%nat; sent := [] |}.

(** [x == s] for a string literal [s] *)
Definition str_eq (v : pyval) (s : string) : bool :=
  match v with VStr x => (x =? s)%string | _ => false end.

(** a dictionary literal with string keys, as a value *)
Definition str_keys (d : pydict string pyval) : list (pyval * pyval) :=
  map (fun kv => (VStr (fst kv), snd kv)) d.

(** [if c: query_vars[k] = v] *)
Definition set_if (c : bool) (k : string) (v : pyval) (q : pydict string pyval)
  : pydict string pyval :=
  if c then PyDict.set k v q else q.

(** JSON input: a custom-variable dictionary, slot id to (name, value) *)
Definition cvars_value (d : pydict Z (pyval * pyval)) : pyval :=
  VDict (map (fun kv => (VInt (fst kv), VTuple [fst (snd kv); snd (snd kv)])) d).

Section Tracker.
Context {R : Runtime}.

(** [random.randint(a, b)]: the next output of the generator, brought
    into [a..b] *)
Definition randint (a b : Z) : Py world Z :=
  fun w =>
    (Ok (a + draws (rng_pos w) mod (b - a + 1)),
     {| trk := trk w; rng_pos := S (rng_pos w); sent := sent w |}).

(** [json.dumps(v)], which raises [TypeError] on what it cannot encode *)
Definition dumps (v : pyval) : outcome string :=
  match json_dumps v with
  | Some j => Ok j
  | None => Raise TypeError
  end.

(** evaluating a name that is bound nowhere *)
Definition unbound_name {A : Type} (name : string) : Py world A :=
  raise (NameError name).

(** [self.referer] *)
Definition getattr_referer : Py world pyval :=
  t <- gets trk ;;
  match referer t with
  | Some v => ret v
  | None => raise (AttributeError "referer")
  end.

(** *** Setters *)

Definition set_api_url (url : pyval) : Py world pyval :=
  modify (with_trk (assign_api_url url)) ;;; ret (VBool true).

Definition set_visitor_id (v : pyval) : Py world pyval :=
  n <- lift (py_len v) ;;
  if negb (n =? LENGTH_VISITOR_ID) then raise InvalidParameter
  else modify (with_trk (assign_visitor_id v)) ;;; ret (VBool true).

Definition set_send_image_response (should_send : pyval) : Py world pyval :=
  modify (with_trk (assign_send_image should_send)) ;;; ret (VBool true).

Definition set_debug (should_debug : pyval) : Py world pyval :=
  modify (with_trk (assign_debug should_debug)) ;;; ret (VBool true).

Definition set_url_referer (r : pyval) : Py world pyval :=
  modify (with_trk (assign_referer (Some r))) ;;; ret (VBool true).

Definition set_url (url : pyval) : Py world pyval :=
  modify (with_trk (assign_page_url url)) ;;; ret (VBool true).

Definition set_action_name (name : pyval) : Py world pyval :=
  modify (with_trk (assign_action_name name)) ;;; ret (VBool true).

(** [set_custom_variable(id, name, value, scope)]; the second test reads
    the name [scopr], which is bound nowhere *)
Definition set_custom_variable (id name value scope : pyval) : Py world pyval :=
  match id with
  | VInt slot =>
      if str_eq scope "page" then
        modify (with_trk (fun t =>
          assign_page_custom_var (PyDict.set slot (name, value) (page_custom_var t)) t)) ;;;
        ret (VBool true)
      else
        scopr <- unbound_name "scopr" ;;
        if str_eq scopr "event" then
          modify (with_trk (fun t =>
            assign_event_custom_var (PyDict.set slot (name, value) (event_custom_var t)) t)) ;;;
          ret (VBool true)
        else if str_eq scope "visit" then
          modify (with_trk (fun t =>
            assign_visitor_custom_var (PyDict.set slot (name, value) (visitor_custom_var t)) t)) ;;;
          ret (VBool true)
        else raise InvalidParameter
  | _ => raise InvalidParameter
  end.

Definition set_dimension (name : string) (value : pyval) : Py world pyval :=
  modify (with_trk (fun t => assign_dimensions (PyDict.set name value (dimensions t)) t)) ;;;
  ret (VBool true).

(** [set_plugins]: the keyword arguments in the order given, each version
    an [int] (on which [int(version)] is the identity) *)
Fixpoint set_plugins_loop (kwargs : list (string * Z)) : Py world unit :=
  match kwargs with
  | [] => ret tt
  | (plugin, version) :: rest =>
      if negb (PyDict.mem plugin KNOWN_PLUGINS) then raise ConfigurationError
      else
        code <- lift (getitem plugin KNOWN_PLUGINS) ;;
        modify (with_trk (fun t =>
          assign_plugins (PyDict.set code version (plugins t)) t)) ;;;
        set_plugins_loop rest
  end.

Definition set_plugins (kwargs : list (string * Z)) : Py world pyval :=
  set_plugins_loop kwargs ;;; ret (VBool true).

Definition add_ecommerce_item (sku : string) (name category price quantity : pyval)
  : Py world pyval :=
  modify (with_trk (fun t =>
    assign_ecommerce_items
      (PyDict.set sku (VTuple [VStr sku; name; category; price; quantity])
         (ecommerce_items t)) t)) ;;;
  ret (VBool true).

Definition set_track_goal (goal rev : pyval) : Py world pyval :=
  modify (with_trk (assign_id_goal goal)) ;;;
  (if is_not_none rev then modify (with_trk (assign_revenue rev)) else ret tt) ;;;
  ret (VBool true).

(** [_get_timestamp] *)
Definition _get_timestamp : Py world pyval :=
  t <- gets trk ;;
  if is_not_none (forced_datetime t) then ret (forced_datetime t)
  else ret (VDatetime now).

(** *** Serialization *)

(** [_get_request(self, id_site)]. The tests [d is not None] on the
    dictionary attributes are always true and left out. *)
Definition _get_request (site : pyval) : Py world query :=
  t <- gets trk ;;
  let q := PyDict.empty in
  let q := PyDict.set "idsite" site q in
  let q := PyDict.set "rec" (VStr "1") q in
  let q := PyDict.set "url" (page_url t) q in
  let q := PyDict.set "apiv" (VInt VERSION) q in
  r <- randint 0 99999 ;;
  let q := PyDict.set "rand" (VInt r) q in
  ref <- getattr_referer ;;
  let q := set_if (is_not_none ref) "referer" ref q in
  let q := set_if (is_not_none (action_name t)) "action_name" (action_name t) q in
  q <- (if is_not_none (local_time t) then
          h <- lift (attr_hour (local_time t)) ;;
          m <- lift (attr_minute (local_time t)) ;;
          s <- lift (attr_second (local_time t)) ;;
          ret (PyDict.set "s" s (PyDict.set "m" m (PyDict.set "h" h q)))
        else ret q) ;;
  let q := set_if (is_not_none (ip t)) "cip" (ip t) q in
  let q := set_if (is_not_none (token_auth t)) "token_auth" (token_auth t) q in
  let q := set_if (has_cookies t) "cookie" (VInt 1) q in
  q <- (if is_not_none (width t) && is_not_none (height t) then
          sw <- lift (format_d (width t)) ;;
          sh <- lift (format_d (height t)) ;;
          ret (PyDict.set "res" (VStr (sw ++ "x" ++ sh)) q)
        else ret q) ;;
  let q := set_if (is_not_none (visitor_id t)) "cid" (visitor_id t) q in
  let q := set_if (is_not_none (visitor_id t)) "_id" (visitor_id t) q in
  let q := set_if (is_not_none (user_id t)) "uid" (VStr (to_string (user_id t))) q in
  let q := set_if (is_not_none (send_image t)) "send_image"
             (VStr (if truthy (send_image t) then "1" else "0")) q in
  q <- (if 0 <? PyDict.len (page_custom_var t) then
          j <- lift (dumps (cvars_value (event_custom_var t))) ;;
          ret (PyDict.set "e_cvar" (VStr j) q)
        else ret q) ;;
  q <- (if 0 <? PyDict.len (page_custom_var t) then
          j <- lift (dumps (cvars_value (page_custom_var t))) ;;
          ret (PyDict.set "cvar" (VStr j) q)
        else ret q) ;;
  q <- (if 0 <? PyDict.len (visitor_custom_var t) then
          j <- lift (dumps (cvars_value (visitor_custom_var t))) ;;
          ret (PyDict.set "_cvar" (VStr j) q)
        else ret q) ;;
  q <- (if 0 <? PyDict.len (event_tracking t) then
          c <- lift (getitem "category" (event_tracking t)) ;;
          a <- lift (getitem "action" (event_tracking t)) ;;
          n <- lift (getitem "name" (event_tracking t)) ;;
          v <- lift (getitem "value" (event_tracking t)) ;;
          ret (PyDict.set "e_v" v (PyDict.set "e_n" n
                 (PyDict.set "e_a" a (PyDict.set "e_c" c q))))
        else ret q) ;;
  let q := if 0 <? PyDict.len (dimensions t)
           then PyDict.update (dimensions t) q else q in
  let q := if 0 <? PyDict.len (plugins t)
           then PyDict.update (map (fun kv => (fst kv, VInt (snd kv))) (plugins t)) q
           else q in
  q <- (if 0 <? PyDict.len (attribution_info t) then
          cn <- lift (getitem "campaign_name" (attribution_info t)) ;;
          ck <- lift (getitem "campaign_keyword" (attribution_info t)) ;;
          rd <- lift (getitem "referral_datetime" (attribution_info t)) ;;
          ts <- lift (floor_timestamp rd) ;;
          ru <- lift (getitem "referral_url" (attribution_info t)) ;;
          ret (PyDict.set "_ref" ru (PyDict.set "_refts" ts
                 (PyDict.set "_rck" ck (PyDict.set "_rcn" cn q))))
        else ret q) ;;
  let q := if is_not_none (id_goal t) then
             let q := PyDict.set "idgoal" (id_goal t) q in
             if is_not_none (revenue t) then PyDict.set "revenue" (revenue t) q else q
           else q in
  let q := set_if (is_True (debug t)) "debug" (VStr "1") q in
  ret q.

(** *** Transport *)

(** lines 717-745 of [_send_request]: headers, cookies and the request *)
Definition prepare_request (query_vars : urlval) (t : PiwikTracker) : http_request :=
  let h := PyDict.empty in
  let h := if is_not_none (user_agent t)
           then PyDict.set "User-Agent" (user_agent t) h else h in
  let h := if is_not_none (accept_language t)
           then PyDict.set "Accept-Language" (accept_language t) h else h in
  let c := if cookie_support t then
             match request_cookies t with
             | Some rc => if 0 <? PyDict.len rc then rc else PyDict.empty
             | None => PyDict.empty
             end
           else PyDict.empty in
  {| req_method := "GET"; req_url := api_url t; req_headers := h;
     req_cookies := c; req_params := query_vars;
     req_verify := truthy (ssl_verify t) |}.

(** [sess.send(prep)]: the one place where a request leaves the program *)
Definition session_send (req : http_request) : Py world http_response :=
  fun w =>
    (perform_get req,
     {| trk := trk w; rng_pos := rng_pos w; sent := sent w ++ [req] |}).

Definition _send_request (query_vars : urlval) : Py world tracking_result :=
  t <- gets trk ;;
  if negb (is_not_none (api_url t)) then raise ConfigurationError
  else
    response <- session_send (prepare_request query_vars t) ;;
    let ok := existsb (Z.eqb (status_code response)) [200; 204] in
    let err := negb ok in
    ret {| body_bytes := content response;
           body_str := text response;
           status := status_code response;
           ok := ok;
           error := err |}.

(** *** URL builders *)

Definition __get_url_track_action (action_url action_type : pyval) : Py world urlval :=
  t <- gets trk ;;
  q <- _get_request (id_site t) ;;
  let url := UDict q in
  url <- lift (iadd_str url ("&" ++ urlencode [(action_type, action_url)])) ;;
  ret url.

Definition __get_url_track_site_search (search search_cat search_count : pyval)
  : Py world urlval :=
  t <- gets trk ;;
  q <- _get_request (id_site t) ;;
  let url := UDict q in
  url <- lift (iadd_str url ("&" ++ urlencode [(VStr "search", search)])) ;;
  url <- (if is_not_none search_cat
          then lift (iadd_str url ("&" ++ urlencode [(VStr "search_cat", search_cat)]))
          else ret url) ;;
  url <- (if is_not_none search_count
          then lift (iadd_str url ("&" ++ urlencode [(VStr "search_count", search_count)]))
          else ret url) ;;
  ret url.

Definition __get_url_track_event (category action name value : pyval) : Py world urlval :=
  t <- gets trk ;;
  q <- _get_request (id_site t) ;;
  let url := UDict q in
  url <- lift (iadd_str url ("&" ++ urlencode [(VStr "e_c", category)])) ;;
  url <- lift (iadd_str url ("&" ++ urlencode [(VStr "e_a", action)])) ;;
  url <- (if truthy name
          then lift (iadd_str url ("&" ++ urlencode [(VStr "e_n", name)]))
          else ret url) ;;
  url <- (if truthy value
          then lift (iadd_str url ("&" ++ urlencode [(VStr "e_v", value)]))
          else ret url) ;;
  ret url.

Definition __get_url_track_ecommerce (grand_total sub_total tax shipping discount : pyval)
  : Py world urlval :=
  t <- gets trk ;;
  q <- _get_request (id_site t) ;;
  let url := UDict q in
  let args := PyDict.set "idgoal" (VInt 0) PyDict.empty in
  let args := PyDict.set "revenue" grand_total args in
  let args := if truthy sub_total then PyDict.set "ec_st" sub_total args else args in
  let args := if truthy tax then PyDict.set "ec_tx" tax args else args in
  let args := if truthy shipping then PyDict.set "ec_sh" shipping args else args in
  let args := if truthy discount then PyDict.set "ec_dt" discount args else args in
  args <- (if 0 <? PyDict.len (ecommerce_items t) then
             let items := VList (PyDict.values (ecommerce_items t)) in
             j <- lift (dumps items) ;;
             ret (PyDict.set "ec_items" (VStr j) args)
           else ret args) ;;
  modify (with_trk (assign_ecommerce_items PyDict.empty)) ;;;
  url <- lift (iadd_str url ("&" ++ urlencode (str_keys args))) ;;
  ret url.

Definition __get_url_track_ecommerce_order
    (order_id grand_total sub_total tax shipping discount : pyval) : Py world urlval :=
  url <- __get_url_track_ecommerce grand_total sub_total tax shipping discount ;;
  url <- lift (iadd_str url ("&" ++ urlencode [(VStr "ec_id", order_id)])) ;;
  ts <- _get_timestamp ;;
  modify (with_trk (assign_ecommerce_last_order_timestamp (Some ts))) ;;;
  ret url.

Definition __get_url_track_ecommerce_cart_update (grand_total : pyval) : Py world urlval :=
  url <- __get_url_track_ecommerce grand_total
           (VBool false) (VBool false) (VBool false) (VBool false) ;;
  ret url.

(** *** Tracking operations *)

Definition execute : Py world tracking_result :=
  t <- gets trk ;;
  q <- _get_request (id_site t) ;;
  let url := UDict q in
  _send_request url.

Definition do_track_action (action_url action_type : pyval) : Py world tracking_result :=
  if negb (str_eq action_type "download" || str_eq action_type "link")
  then raise InvalidParameter
  else
    url <- __get_url_track_action action_url action_type ;;
    _send_request url.

Definition do_track_site_search (search search_cat search_count : pyval)
  : Py world tracking_result :=
  url <- __get_url_track_site_search search search_cat search_count ;;
  _send_request url.

(** the arguments of the call are the names [category], [action], [name]
    and [value], none of them a parameter of [do_track_content] *)
Definition do_track_content
    (content_name content_piece content_target content_interaction : pyval)
  : Py world tracking_result :=
  category <- unbound_name "category" ;;
  action <- unbound_name "action" ;;
  name <- unbound_name "name" ;;
  value <- unbound_name "value" ;;
  url <- __get_url_track_event category action name value ;;
  _send_request url.

Definition do_track_ecommerce_cart_update (grand_total : pyval) : Py world tracking_result :=
  url <- __get_url_track_ecommerce_cart_update grand_total ;;
  _send_request url.

Definition do_track_ecommerce_order
    (order_id grand_total sub_total tax shipping discount : pyval)
  : Py world tracking_result :=
  url <- __get_url_track_ecommerce_order
           order_id grand_total sub_total tax shipping discount ;;
  _send_request url.
End Tracker.

(** ** A runtime to run the model on concrete inputs *)

Definition dquote : string := String (Ascii.ascii_of_nat 34) EmptyString.

Fixpoint join (sep : string) (l : list string) : string :=
  match l with
  | [] => EmptyString
  | [x] => x
  | x :: rest => x ++ sep ++ join sep rest
  end.

(** JSON text of a value, for strings that need no escaping *)
Fixpoint json_text (v : pyval) : string :=
  match v with
  | VNone => "null"
  | VBool true => "true"
  | VBool false => "false"
  | VInt z => str_of_Z z
  | VStr s => dquote ++ s ++ dquote
  | VDatetime _ => "null"
  | VTuple l | VList l => "[" ++ join ", " (map json_text l) ++ "]"
  | VDict l =>
      "{" ++ join ", "
               (map (fun kv : pyval * pyval =>
                       let (k, x) := kv in
                       match k with
                       | VStr s => dquote ++ s ++ dquote
                       | _ => dquote ++ json_text k ++ dquote
                       end ++ ": " ++ json_text x) l) ++ "}"
  end.

(** [str(x)] for the scalars, the JSON text otherwise *)
Definition plain_text (v : pyval) : string :=
  match v with
  | VStr s => s
  | VNone => "None"
  | VBool true => "True"
  | VBool false => "False"
  | _ => json_text v
  end.

(** A generator with outputs 4242, 12161, ...; encoders without escaping;
    a collector that answers every request with 204 and an empty body. *)
Definition sample_runtime : Runtime :=
  {| draws := fun n => 7919 * Z.of_nat n + 4242;
     json_dumps := fun v => Some (json_text v);
     urlencode := fun l =>
       join "&" (map (fun kv => plain_text (fst kv) ++ "=" ++ plain_text (snd kv)) l);
     to_string := plain_text;
     now := {| dt_hour := 12; dt_minute := 0; dt_second := 0;
               dt_posix_us := 1700000000000000 |};
     perform_get := fun _ =>
       Ok {| status_code := 204; content := []; text := EmptyString |} |}.

(** ** Reasoning about computations *)

(** [m] leaves the component [f] of the state as it found it, whether it
    returns or raises. *)
Definition preserves {X A : Type} (f : world -> X) (m : Py world A) : Prop :=
  forall w, f (snd (m w)) = f w.

(** If [m] returns from [w], the result and the final state satisfy [Q]. *)
Definition post {A : Type} (m : Py world A) (w : world) (Q : A -> world -> Prop) : Prop :=
  match m w with
  | (Ok a, w') => Q a w'
  | (Raise _, _) => True
  end.

Section Outcomes.
Context {R : Runtime}.

(** [m] raises from [w] an exception satisfying [P], and no request has
    been handed to the transport by then. *)
Definition raises_before_transport {A} (m : Py world A) (w : world) (P : exn -> Prop) : Prop :=
  exists e w', m w = (Raise e, w') /\ sent w' = sent w /\ P e.

(** the state after one draw from the generator *)
Definition drawn (w : world) : world :=
  {| trk := trk w; rng_pos := S (rng_pos w); sent := sent w |}.

(** the base serialization returns a dictionary from [w] *)
Definition serializes (w : world) : Prop :=
  exists q w1, _get_request (id_site (trk w)) w = (Ok q, w1).

(** the shape of every builder and of [execute]: serialize, then [k] *)
Definition after_request {A} (k : PiwikTracker -> query -> Py world A) : Py world A :=
  t <- gets trk ;; q <- _get_request (id_site t) ;; k t q.

(** [m] stops at the serializer's read of the missing attribute, one
    draw after [w] *)
Definition fails_on_referer {A} (m : Py world A) (w : world) : Prop :=
  m w = (Raise (AttributeError "referer"), drawn w).

(** the mapping [q] has the value [x] under [key] *)
Definition carries (key : string) (x : pyval) (q : query) : Prop :=
  PyDict.get key q = Some x.

(** neither a custom dimension nor a plugin entry is stored under [key] *)
Definition free_key (key : string) (t : PiwikTracker) : bool :=
  negb (PyDict.mem key (dimensions t)) && negb (PyDict.mem key (plugins t)).

(** the action types [do_track_action] accepts *)
Definition legal_action (action_type : pyval) : bool :=
  str_eq action_type "download" || str_eq action_type "link".
End Outcomes.

(** ** Further methods *)

(** Assignment of the attributes the methods below assign *)
Definition assign_request_cookies (x : option (pydict string pyval)) (t : PiwikTracker) : PiwikTracker :=
  {| action_name := action_name t; ecommerce_items := ecommerce_items t; id_site := id_site t;
     api_url := api_url t; request_cookies := x; user_agent := user_agent t;
     accept_language := accept_language t; ip := ip t; token_auth := token_auth t;
     forced_datetime := forced_datetime t; local_time := local_time t; page_url := page_url t;
     cookie_support := cookie_support t; has_cookies := has_cookies t; width := width t;
     height := height t; visitor_id := visitor_id t; debug_append_url := debug_append_url t;
     event_custom_var := event_custom_var t; page_custom_var := page_custom_var t;
     visitor_custom_var := visitor_custom_var t; event_tracking := event_tracking t;
     dimensions := dimensions t; plugins := plugins t; attribution_info := attribution_info t;
     user_id := user_id t; send_image := send_image t; id_goal := id_goal t;
     revenue := revenue t; debug := debug t; ssl_verify := ssl_verify t; referer := referer t;
     ecommerce_last_order_timestamp := ecommerce_last_order_timestamp t |}.

Definition assign_user_agent (x : pyval) (t : PiwikTracker) : PiwikTracker :=
  {| action_name := action_name t; ecommerce_items := ecommerce_items t; id_site := id_site t;
     api_url := api_url t; request_cookies := request_cookies t; user_agent := x;
     accept_language := accept_language t; ip := ip t; token_auth := token_auth t;
     forced_datetime := forced_datetime t; local_time := local_time t; page_url := page_url t;
     cookie_support := cookie_support t; has_cookies := has_cookies t; width := width t;
     height := height t; visitor_id := visitor_id t; debug_append_url := debug_append_url t;
     event_custom_var := event_custom_var t; page_custom_var := page_custom_var t;
     visitor_custom_var := visitor_custom_var t; event_tracking := event_tracking t;
     dimensions := dimensions t; plugins := plugins t; attribution_info := attribution_info t;
     user_id := user_id t; send_image := send_image t; id_goal := id_goal t;
     revenue := revenue t; debug := debug t; ssl_verify := ssl_verify t; referer := referer t;
     ecommerce_last_order_timestamp := ecommerce_last_order_timestamp t |}.

Definition assign_accept_language (x : pyval) (t : PiwikTracker) : PiwikTracker :=
  {| action_name := action_name t; ecommerce_items := ecommerce_items t; id_site := id_site t;
     api_url := api_url t; request_cookies := request_cookies t; user_agent := user_agent t;
     accept_language := x; ip := ip t; token_auth := token_auth t;
     forced_datetime := forced_datetime t; local_time := local_time t; page_url := page_url t;
     cookie_support := cookie_support t; has_cookies := has_cookies t; width := width t;
     height := height t; visitor_id := visitor_id t; debug_append_url := debug_append_url t;
     event_custom_var := event_custom_var t; page_custom_var := page_custom_var t;
     visitor_custom_var := visitor_custom_var t; event_tracking := event_tracking t;
     dimensions := dimensions t; plugins := plugins t; attribution_info := attribution_info t;
     user_id := user_id t; send_image := send_image t; id_goal := id_goal t;
     revenue := revenue t; debug := debug t; ssl_verify := ssl_verify t; referer := referer t;
     ecommerce_last_order_timestamp := ecommerce_last_order_timestamp t |}.

Definition assign_ip (x : pyval) (t : PiwikTracker) : PiwikTracker :=
  {| action_name := action_name t; ecommerce_items := ecommerce_items t; id_site := id_site t;
     api_url := api_url t; request_cookies := request_cookies t; user_agent := user_agent t;
     accept_language := accept_language t; ip := x; token_auth := token_auth t;
     forced_datetime := forced_datetime t; local_time := local_time t; page_url := page_url t;
     cookie_support := cookie_support t; has_cookies := has_cookies t; width := width t;
     height := height t; visitor_id := visitor_id t; debug_append_url := debug_append_url t;
     event_custom_var := event_custom_var t; page_custom_var := page_custom_var t;
     visitor_custom_var := visitor_custom_var t; event_tracking := event_tracking t;
     dimensions := dimensions t; plugins := plugins t; attribution_info := attribution_info t;
     user_id := user_id t; send_image := send_image t; id_goal := id_goal t;
     revenue := revenue t; debug := debug t; ssl_verify := ssl_verify t; referer := referer t;
     ecommerce_last_order_timestamp := ecommerce_last_order_timestamp t |}.

Definition assign_token_auth (x : pyval) (t : PiwikTracker) : PiwikTracker :=
  {| action_name := action_name t; ecommerce_items := ecommerce_items t; id_site := id_site t;
     api_url := api_url t; request_cookies := request_cookies t; user_agent := user_agent t;
     accept_language := accept_language t; ip := ip t; token_auth := x;
     forced_datetime := forced_datetime t; local_time := local_time t; page_url := page_url t;
     cookie_support := cookie_support t; has_cookies := has_cookies t; width := width t;
     height := height t; visitor_id := visitor_id t; debug_append_url := debug_append_url t;
     event_custom_var := event_custom_var t; page_custom_var := page_custom_var t;
     visitor_custom_var := visitor_custom_var t; event_tracking := event_tracking t;
     dimensions := dimensions t; plugins := plugins t; attribution_info := attribution_info t;
     user_id := user_id t; send_image := send_image t; id_goal := id_goal t;
     revenue := revenue t; debug := debug t; ssl_verify := ssl_verify t; referer := referer t;
     ecommerce_last_order_timestamp := ecommerce_last_order_timestamp t |}.

Definition assign_forced_datetime (x : pyval) (t : PiwikTracker) : PiwikTracker :=
  {| action_name := action_name t; ecommerce_items := ecommerce_items t; id_site := id_site t;
     api_url := api_url t; request_cookies := request_cookies t; user_agent := user_agent t;
     accept_language := accept_language t; ip := ip t; token_auth := token_auth t;
     forced_datetime := x; local_time := local_time t; page_url := page_url t;
     cookie_support := cookie_support t; has_cookies := has_cookies t; width := width t;
     height := height t; visitor_id := visitor_id t; debug_append_url := debug_append_url t;
     event_custom_var := event_custom_var t; page_custom_var := page_custom_var t;
     visitor_custom_var := visitor_custom_var t; event_tracking := event_tracking t;
     dimensions := dimensions t; plugins := plugins t; attribution_info := attribution_info t;
     user_id := user_id t; send_image := send_image t; id_goal := id_goal t;
     revenue := revenue t; debug := debug t; ssl_verify := ssl_verify t; referer := referer t;
     ecommerce_last_order_timestamp := ecommerce_last_order_timestamp t |}.

Definition assign_local_time (x : pyval) (t : PiwikTracker) : PiwikTracker :=
  {| action_name := action_name t; ecommerce_items := ecommerce_items t; id_site := id_site t;
     api_url := api_url t; request_cookies := request_cookies t; user_agent := user_agent t;
     accept_language := accept_language t; ip := ip t; token_auth := token_auth t;
     forced_datetime := forced_datetime t; local_time := x; page_url := page_url t;
     cookie_support := cookie_support t; has_cookies := has_cookies t; width := width t;
     height := height t; visitor_id := visitor_id t; debug_append_url := debug_append_url t;
     event_custom_var := event_custom_var t; page_custom_var := page_custom_var t;
     visitor_custom_var := visitor_custom_var t; event_tracking := event_tracking t;
     dimensions := dimensions t; plugins := plugins t; attribution_info := attribution_info t;
     user_id := user_id t; send_image := send_image t; id_goal := id_goal t;
     revenue := revenue t; debug := debug t; ssl_verify := ssl_verify t; referer := referer t;
     ecommerce_last_order_timestamp := ecommerce_last_order_timestamp t |}.

Definition assign_cookie_support (x : bool) (t : PiwikTracker) : PiwikTracker :=
  {| action_name := action_name t; ecommerce_items := ecommerce_items t; id_site := id_site t;
     api_url := api_url t; request_cookies := request_cookies t; user_agent := user_agent t;
     accept_language := accept_language t; ip := ip t; token_auth := token_auth t;
     forced_datetime := forced_datetime t; local_time := local_time t; page_url := page_url t;
     cookie_support := x; has_cookies := has_cookies t; width := width t; height := height t;
     visitor_id := visitor_id t; debug_append_url := debug_append_url t;
     event_custom_var := event_custom_var t; page_custom_var := page_custom_var t;
     visitor_custom_var := visitor_custom_var t; event_tracking := event_tracking t;
     dimensions := dimensions t; plugins := plugins t; attribution_info := attribution_info t;
     user_id := user_id t; send_image := send_image t; id_goal := id_goal t;
     revenue := revenue t; debug := debug t; ssl_verify := ssl_verify t; referer := referer t;
     ecommerce_last_order_timestamp := ecommerce_last_order_timestamp t |}.

Definition assign_has_cookies (x : bool) (t : PiwikTracker) : PiwikTracker :=
  {| action_name := action_name t; ecommerce_items := ecommerce_items t; id_site := id_site t;
     api_url := api_url t; request_cookies := request_cookies t; user_agent := user_agent t;
     accept_language := accept_language t; ip := ip t; token_auth := token_auth t;
     forced_datetime := forced_datetime t; local_time := local_time t; page_url := page_url t;
     cookie_support := cookie_support t; has_cookies := x; width := width t; height := height t;
     visitor_id := visitor_id t; debug_append_url := debug_append_url t;
     event_custom_var := event_custom_var t; page_custom_var := page_custom_var t;
     visitor_custom_var := visitor_custom_var t; event_tracking := event_tracking t;
     dimensions := dimensions t; plugins := plugins t; attribution_info := attribution_info t;
     user_id := user_id t; send_image := send_image t; id_goal := id_goal t;
     revenue := revenue t; debug := debug t; ssl_verify := ssl_verify t; referer := referer t;
     ecommerce_last_order_timestamp := ecommerce_last_order_timestamp t |}.

Definition assign_width (x : pyval) (t : PiwikTracker) : PiwikTracker :=
  {| action_name := action_name t; ecommerce_items := ecommerce_items t; id_site := id_site t;
     api_url := api_url t; request_cookies := request_cookies t; user_agent := user_agent t;
     accept_language := accept_language t; ip := ip t; token_auth := token_auth t;
     forced_datetime := forced_datetime t; local_time := local_time t; page_url := page_url t;
     cookie_support := cookie_support t; has_cookies := has_cookies t; width := x;
     height := height t; visitor_id := visitor_id t; debug_append_url := debug_append_url t;
     event_custom_var := event_custom_var t; page_custom_var := page_custom_var t;
     visitor_custom_var := visitor_custom_var t; event_tracking := event_tracking t;
     dimensions := dimensions t; plugins := plugins t; attribution_info := attribution_info t;
     user_id := user_id t; send_image := send_image t; id_goal := id_goal t;
     revenue := revenue t; debug := debug t; ssl_verify := ssl_verify t; referer := referer t;
     ecommerce_last_order_timestamp := ecommerce_last_order_timestamp t |}.

Definition assign_height (x : pyval) (t : PiwikTracker) : PiwikTracker :=
  {| action_name := action_name t; ecommerce_items := ecommerce_items t; id_site := id_site t;
     api_url := api_url t; request_cookies := request_cookies t; user_agent := user_agent t;
     accept_language := accept_language t; ip := ip t; token_auth := token_auth t;
     forced_datetime := forced_datetime t; local_time := local_time t; page_url := page_url t;
     cookie_support := cookie_support t; has_cookies := has_cookies t; width := width t;
     height := x; visitor_id := visitor_id t; debug_append_url := debug_append_url t;
     event_custom_var := event_custom_var t; page_custom_var := page_custom_var t;
     visitor_custom_var := visitor_custom_var t; event_tracking := event_tracking t;
     dimensions := dimensions t; plugins := plugins t; attribution_info := attribution_info t;
     user_id := user_id t; send_image := send_image t; id_goal := id_goal t;
     revenue := revenue t; debug := debug t; ssl_verify := ssl_verify t; referer := referer t;
     ecommerce_last_order_timestamp := ecommerce_last_order_timestamp t |}.

Definition assign_event_tracking (x : pydict string pyval) (t : PiwikTracker) : PiwikTracker :=
  {| action_name := action_name t; ecommerce_items := ecommerce_items t; id_site := id_site t;
     api_url := api_url t; request_cookies := request_cookies t; user_agent := user_agent t;
     accept_language := accept_language t; ip := ip t; token_auth := token_auth t;
     forced_datetime := forced_datetime t; local_time := local_time t; page_url := page_url t;
     cookie_support := cookie_support t; has_cookies := has_cookies t; width := width t;
     height := height t; visitor_id := visitor_id t; debug_append_url := debug_append_url t;
     event_custom_var := event_custom_var t; page_custom_var := page_custom_var t;
     visitor_custom_var := visitor_custom_var t; event_tracking := x; dimensions := dimensions t;
     plugins := plugins t; attribution_info := attribution_info t; user_id := user_id t;
     send_image := send_image t; id_goal := id_goal t; revenue := revenue t; debug := debug t;
     ssl_verify := ssl_verify t; referer := referer t;
     ecommerce_last_order_timestamp := ecommerce_last_order_timestamp t |}.

Definition assign_ssl_verify (x : pyval) (t : PiwikTracker) : PiwikTracker :=
  {| action_name := action_name t; ecommerce_items := ecommerce_items t; id_site := id_site t;
     api_url := api_url t; request_cookies := request_cookies t; user_agent := user_agent t;
     accept_language := accept_language t; ip := ip t; token_auth := token_auth t;
     forced_datetime := forced_datetime t; local_time := local_time t; page_url := page_url t;
     cookie_support := cookie_support t; has_cookies := has_cookies t; width := width t;
     height := height t; visitor_id := visitor_id t; debug_append_url := debug_append_url t;
     event_custom_var := event_custom_var t; page_custom_var := page_custom_var t;
     visitor_custom_var := visitor_custom_var t; event_tracking := event_tracking t;
     dimensions := dimensions t; plugins := plugins t; attribution_info := attribution_info t;
     user_id := user_id t; send_image := send_image t; id_goal := id_goal t;
     revenue := revenue t; debug := debug t; ssl_verify := x; referer := referer t;
     ecommerce_last_order_timestamp := ecommerce_last_order_timestamp t |}.

Section MoreMethods.
Context {R : Runtime}.

Definition set_local_time (dt : pyval) : Py world pyval :=
  modify (with_trk (assign_local_time dt)) ;;; ret (VBool true).

Definition set_token_auth (token : pyval) : Py world pyval :=
  modify (with_trk (assign_token_auth token)) ;;; ret (VBool true).

Definition set_ip (addr : pyval) : Py world pyval :=
  modify (with_trk (assign_ip addr)) ;;; ret (VBool true).

Definition set_browser_has_cookies : Py world pyval :=
  modify (with_trk (assign_has_cookies true)) ;;; ret (VBool true).

Definition set_browser_language (language : pyval) : Py world pyval :=
  modify (with_trk (assign_accept_language language)) ;;; ret (VBool true).

Definition set_user_agent (ua : pyval) : Py world pyval :=
  modify (with_trk (assign_user_agent ua)) ;;; ret (VBool true).

Definition set_resolution (w h : pyval) : Py world pyval :=
  modify (with_trk (assign_width w)) ;;;
  modify (with_trk (assign_height h)) ;;;
  ret (VBool true).

Definition set_force_visit_date_time (dt : pyval) : Py world pyval :=
  modify (with_trk (assign_forced_datetime dt)) ;;; ret (VBool true).

Definition set_request_cookie (cookies : option (pydict string pyval)) : Py world pyval :=
  modify (with_trk (assign_request_cookies cookies)) ;;; ret (VBool true).

(** the warning it logs first is not part of the state *)
Definition disable_cookie_support : Py world pyval :=
  modify (with_trk (assign_cookie_support false)) ;;; ret (VBool true).

Definition set_event_tracking (category action name value : pyval) : Py world pyval :=
  modify (with_trk (assign_event_tracking
                      [ ("category", category); ("action", action);
                        ("name", name); ("value", value) ])) ;;;
  ret (VBool true).

Definition set_ssl_verify (verify : pyval) : Py world pyval :=
  modify (with_trk (assign_ssl_verify verify)) ;;; ret (VBool true).

Definition get_visitor_id : Py world pyval :=
  t <- gets trk ;; ret (visitor_id t).

(** [get_custom_variable(id, scope)] for an [int] slot id; the stored pair
    comes back as the tuple it is *)
Definition get_custom_variable (id : Z) (scope : pyval) : Py world pyval :=
  t <- gets trk ;;
  var_map <- (if str_eq scope "visit" then ret (visitor_custom_var t)
              else if str_eq scope "event" then ret (event_custom_var t)
              else if str_eq scope "page" then ret (page_custom_var t)
              else raise InvalidParameter) ;;
  if negb (PyDict.mem id var_map) then ret VNone
  else
    match PyDict.get id var_map with
    | Some nv => ret (VTuple [fst nv; snd nv])
    | None => raise (KeyError EmptyString)
    end.

(** [self.page_custom_var[slot] = (name, value)] *)
Definition store_page_var (slot : Z) (name value : pyval) : Py world unit :=
  modify (with_trk (fun t =>
    assign_page_custom_var (PyDict.set slot (name, value) (page_custom_var t)) t)).

(** [set_ecommerce_view(sku, name, category, price)], the missing arguments
    being [False] *)
Definition set_ecommerce_view (sku name category price : pyval) : Py world pyval :=
  category <- (if truthy category then
                 match category with
                 | VList _ => j <- lift (dumps category) ;; ret (VStr j)
                 | _ => ret category
                 end
               else ret (VStr EmptyString)) ;;
  store_page_var 5 (VStr "_pkc") category ;;;
  (if truthy price then store_page_var 2 (VStr "_pkp") price else ret tt) ;;;
  (if truthy sku && truthy name then
     (if truthy sku then store_page_var 3 (VStr "_pks") sku else ret tt) ;;;
     (if truthy name then store_page_var 4 (VStr "_pkn") name else ret tt)
   else ret tt) ;;;
  ret (VBool true).
End MoreMethods.

(** ** Scenarios *)

(** the state a computation leaves behind *)
Definition exec {A : Type} (m : Py world A) (w : world) : world := snd (m w).

(** [PiwikTracker(1)], then [set_url("http://example.com")] and nothing else *)
Definition site1_url_only : world :=
  exec (set_url (VStr "http://example.com")) (fresh (VInt 1)).

(** the same, then [set_url_referer(None)] *)
Definition site1_url_referer : world :=
  exec (set_url_referer VNone) site1_url_only.

(** the same, then [set_api_url] *)
Definition site1_ready : world :=
  exec (set_api_url (VStr "http://piwik.example.com/piwik.php")) site1_url_referer.

(** [add_ecommerce_item("SKU1", "Widget", "Widgets", 80, 1)] *)
Definition add_widget : Py world pyval :=
  add_ecommerce_item "SKU1" (VStr "Widget") (VStr "Widgets") (VInt 80) (VInt 1).

(** [do_track_ecommerce_order("ORDER1", 100, sub_total=80)] *)
Definition order1 {R : Runtime} : Py world tracking_result :=
  do_track_ecommerce_order (VStr "ORDER1") (VInt 100) (VInt 80)
    (VBool false) (VBool false) (VBool false).

(** site 1 with URL and API URL set and one item added, the referrer never
    assigned *)
Definition cart_no_referer : world :=
  exec add_widget
    (exec (set_api_url (VStr "http://piwik.example.com/piwik.php")) site1_url_only).

(** the same with the referrer assigned [None] first *)
Definition cart_with_referer : world := exec add_widget site1_ready.

(** a collector that rejects every request *)
Definition rejecting_runtime : Runtime :=
  {| draws := @draws sample_runtime;
     json_dumps := @json_dumps sample_runtime;
     urlencode := @urlencode sample_runtime;
     to_string := @to_string sample_runtime;
     now := @now sample_runtime;
     perform_get := fun _ =>
       Ok {| status_code := 500; content := []; text := "Internal Server Error" |} |}.

(** ** Vocabulary of the further properties *)

(** the value under a key written by [if c: query_vars[k] = v] *)
Definition entry (c : bool) (v : pyval) : option pyval := if c then Some v else None.

(** the value under the key of a guarded [json.dumps] block, given that the
    serializer returned *)
Definition json_entry {R : Runtime} (c : bool) (v : pyval) : option pyval :=
  if c then option_map VStr (json_dumps v) else None.

(** the keys the serializer writes after the dimension and plugin loops *)
Definition late_keys : list string :=
  ["_rcn"; "_rck"; "_refts"; "_ref"; "idgoal"; "revenue"; "debug"].

(** the short codes of the known plugins *)
Definition short_codes : list string := PyDict.values KNOWN_PLUGINS.

(** every key of the plugin mapping is a short code *)
Definition plugins_whitelisted (t : PiwikTracker) : Prop :=
  forall k, PyDict.mem k (plugins t) = true -> In k short_codes.

(** the scopes [get_custom_variable] accepts *)
Definition known_scope (scope : pyval) : bool :=
  str_eq scope "visit" || str_eq scope "event" || str_eq scope "page".

(** the mapping [get_custom_variable] reads for a scope *)
Definition scope_map (scope : pyval) (t : PiwikTracker) : pydict Z (pyval * pyval) :=
  if str_eq scope "visit" then visitor_custom_var t
  else if str_eq scope "event" then event_custom_var t
  else page_custom_var t.

(** what [get_custom_variable] returns for a slot of a mapping *)
Definition slot_value (slot : Z) (m : pydict Z (pyval * pyval)) : pyval :=
  match PyDict.get slot m with
  | Some nv => VTuple [fst nv; snd nv]
  | None => VNone
  end.

(** the plugin mapping after storing the supplied known plugins in turn *)
Definition stored_plugins (kwargs : list (string * Z)) (p : pydict string Z)
  : pydict string Z :=
  fold_left (fun acc kv =>
               match PyDict.get (fst kv) KNOWN_PLUGINS with
               | Some code => PyDict.set code (snd kv) acc
               | None => acc
               end) kwargs p.

(** 2024-03-09 14:30:05 as a value *)
Definition afternoon : pyval :=
  VDatetime {| dt_hour := 14; dt_minute := 30; dt_second := 5;
               dt_posix_us := 1709994605000000 |}.

(** a tracker with most of its context set through the setters *)
Definition site1_full : world :=
  exec (set_track_goal (VInt 3) (VInt 50))
    (exec (set_plugins [("flash", 1); ("java", 6)])
       (exec (set_dimension "dimension1" (VStr "blue"))
          (exec (set_event_tracking (VStr "video") (VStr "play") (VStr "intro") (VInt 7))
             (exec (set_custom_variable (VInt 1) (VStr "n") (VStr "v") (VStr "page"))
                (exec (set_local_time afternoon)
                   (exec (set_resolution (VInt 1280) (VInt 800))
                      (exec set_browser_has_cookies
                         (exec (set_token_auth (VStr "secret"))
                            (exec (set_ip (VStr "192.0.2.7"))
                               (exec (set_action_name (VStr "Home")) site1_ready)))))))))).

(** the value [set_ecommerce_view] stores for a category: the category
    itself, its JSON encoding when it is a list, the empty string when it
    is falsy; [None] when the encoder rejects the list *)
Definition view_category {R : Runtime} (category : pyval) : option pyval :=
  if truthy category then
    match category with
    | VList _ => option_map VStr (json_dumps category)
    | _ => Some category
    end
  else Some (VStr EmptyString).

(** a transport that fails on every request *)
Definition offline_runtime : Runtime :=
  {| draws := @draws sample_runtime;
     json_dumps := @json_dumps sample_runtime;
     urlencode := @urlencode sample_runtime;
     to_string := @to_string sample_runtime;
     now := @now sample_runtime;
     perform_get := fun _ => Raise TransportFailure |}.

(** * Properties *)

(** ** Dictionaries *)

Module PyDictFacts.
Import PyDict.
Section Facts.
Context {K V : Type} `{Key K}.
Implicit Types (k : K) (v : V) (d : PyDict.t K V).

Lemma key_eqb_refl (k : K) : key_eqb k k = true.
Proof. destruct (key_eqb_spec k k); congruence. Qed.

Lemma key_eqb_neq (a b : K) : a <> b -> key_eqb a b = false.
Proof. intro N. destruct (key_eqb_spec a b); congruence. Qed.

Lemma get_set_eq (k : K) (v : V) (d : t K V) : get k (set k v d) = Some v.
Proof.
  induction d as [|[k' v'] d IH]; simpl.
  - now rewrite key_eqb_refl.
  - destruct (key_eqb k k') eqn:E; simpl; rewrite E; auto.
Qed.

Lemma get_set_ne (k k' : K) (v : V) (d : t K V) :
  k <> k' -> get k' (set k v d) = get k' d.
Proof.
  intro N. induction d as [|[k0 v0] d IH]; simpl.
  - rewrite key_eqb_neq; auto.
  - destruct (key_eqb k k0) eqn:E; simpl.
    + destruct (key_eqb_spec k k0) as [->|]; [|discriminate].
      rewrite (key_eqb_neq k' k0); auto.
    + now rewrite IH.
Qed.

Lemma mem_set_eq (k : K) (v : V) (d : t K V) : mem k (set k v d) = true.
Proof. unfold mem. now rewrite get_set_eq. Qed.

Lemma mem_set_ne (k k' : K) (v : V) (d : t K V) :
  k <> k' -> mem k' (set k v d) = mem k' d.
Proof. intro N. unfold mem. now rewrite get_set_ne. Qed.

Lemma get_update_absent (k : K) (src d : t K V) :
  get k src = None -> get k (update src d) = get k d.
Proof.
  unfold update. revert d.
  induction src as [|[k0 v0] src IH]; intros d Hk; simpl in *; auto.
  destruct (key_eqb k k0) eqn:E; [discriminate|].
  rewrite IH by assumption. apply get_set_ne.
  intros ->. now rewrite key_eqb_refl in E.
Qed.

Lemma len_zero_empty (d : t K V) : len d = 0 <-> d = [].
Proof.
  unfold len. destruct d; simpl; split; intro E; auto; try discriminate; lia.
Qed.

Lemma len_nonneg (d : t K V) : 0 <= len d.
Proof. unfold len. lia. Qed.
End Facts.
End PyDictFacts.

(** ** Computations *)

Lemma bind_ok {S A B : Type} (m : Py S A) (f : A -> Py S B) s a s' :
  m s = (Ok a, s') -> bind m f s = f a s'.
Proof. unfold bind. now intros ->. Qed.

Lemma bind_raise {S A B : Type} (m : Py S A) (f : A -> Py S B) s e s' :
  m s = (Raise e, s') -> bind m f s = (Raise e, s').
Proof. unfold bind. now intros ->. Qed.

Section Frames.
Context {X : Type} (f : world -> X).

Lemma preserves_ret {A} (a : A) : preserves f (ret a).
Proof. intro w. reflexivity. Qed.

Lemma preserves_raise {A} (e : exn) : preserves f (@raise world A e).
Proof. intro w. reflexivity. Qed.

Lemma preserves_unbound {A} (n : string) : preserves f (@unbound_name A n).
Proof. intro w. reflexivity. Qed.

Lemma preserves_lift {A} (o : outcome A) : preserves f (lift o).
Proof. intro w. reflexivity. Qed.

Lemma preserves_gets {A} (g : world -> A) : preserves f (gets g).
Proof. intro w. reflexivity. Qed.

Lemma preserves_bind {A B} (m : Py world A) (k : A -> Py world B) :
  preserves f m -> (forall a, preserves f (k a)) -> preserves f (bind m k).
Proof.
  intros Hm Hk w. unfold bind. specialize (Hm w).
  destruct (m w) as [[a|e] w1]; simpl in *; [|assumption].
  now rewrite Hk.
Qed.
End Frames.

Lemma bind_ok_inv {A B} (m : Py world A) (k : A -> Py world B) w b w' :
  bind m k w = (Ok b, w') ->
  exists a w1, m w = (Ok a, w1) /\ k a w1 = (Ok b, w').
Proof.
  unfold bind. destruct (m w) as [[a|e] w1]; [eauto | discriminate].
Qed.

Lemma post_ret {A} (a : A) w (Q : A -> world -> Prop) : Q a w -> post (ret a) w Q.
Proof. intro H. exact H. Qed.

Lemma post_lift {A} (o : outcome A) w (Q : A -> world -> Prop) :
  (forall a, o = Ok a -> Q a w) -> post (lift o) w Q.
Proof. intro H. unfold post, lift. destruct o; auto. Qed.

Lemma post_bind {A B} (m : Py world A) (k : A -> Py world B) w
      (I : A -> world -> Prop) (Q : B -> world -> Prop) :
  post m w I -> (forall a w1, I a w1 -> post (k a) w1 Q) -> post (bind m k) w Q.
Proof.
  unfold post, bind. intros Hm Hk.
  destruct (m w) as [[a|e] w1]; [|exact Logic.I].
  now apply Hk.
Qed.

Lemma post_elim {A} (m : Py world A) w (Q : A -> world -> Prop) a w' :
  post m w Q -> m w = (Ok a, w') -> Q a w'.
Proof. unfold post. intros H E. now rewrite E in H. Qed.

Create HintDb py_frame.

#[export] Hint Resolve preserves_ret preserves_raise preserves_unbound
  preserves_lift preserves_gets : py_frame.

(** Walks down a chain of binds, splitting on the tests it meets *)
Ltac frame :=
  repeat first
    [ solve [auto with py_frame]
    | apply preserves_bind; [| intro]
    | match goal with
      | |- preserves _ (if ?c then _ else _) => destruct c
      | |- preserves _ (match ?x with _ => _ end) => destruct x
      end
    | progress cbv zeta ].

Section Properties.
Context {R : Runtime}.

Lemma randint_trk a b : preserves trk (randint a b).
Proof. intro w. reflexivity. Qed.

Lemma randint_sent a b : preserves sent (randint a b).
Proof. intro w. reflexivity. Qed.

Lemma modify_trk_sent g : preserves sent (modify (with_trk g)).
Proof. intro w. reflexivity. Qed.

Lemma getattr_referer_frame {X} (f : world -> X) : preserves f getattr_referer.
Proof. unfold getattr_referer. frame. Qed.

#[local] Hint Resolve randint_trk randint_sent modify_trk_sent getattr_referer_frame : py_frame.

(** Serialization reads the tracker and sends nothing; it only advances
    the generator. *)
Lemma _get_request_trk site : preserves trk (_get_request site).
Proof. unfold _get_request. frame. Qed.

Lemma _get_request_sent site : preserves sent (_get_request site).
Proof. unfold _get_request. frame. Qed.

#[local] Hint Resolve _get_request_trk _get_request_sent : py_frame.

Lemma _get_timestamp_sent : preserves sent _get_timestamp.
Proof. unfold _get_timestamp. frame. Qed.

#[local] Hint Resolve _get_timestamp_sent : py_frame.

Lemma track_action_sent u a : preserves sent (__get_url_track_action u a).
Proof. unfold __get_url_track_action. frame. Qed.

Lemma track_site_search_sent s c n : preserves sent (__get_url_track_site_search s c n).
Proof. unfold __get_url_track_site_search. frame. Qed.

Lemma track_event_sent c a n v : preserves sent (__get_url_track_event c a n v).
Proof. unfold __get_url_track_event. frame. Qed.

Lemma track_ecommerce_sent g s t h d : preserves sent (__get_url_track_ecommerce g s t h d).
Proof. unfold __get_url_track_ecommerce. frame. Qed.

#[local] Hint Resolve track_action_sent track_site_search_sent track_event_sent
  track_ecommerce_sent : py_frame.

Lemma track_ecommerce_order_sent o g s t h d :
  preserves sent (__get_url_track_ecommerce_order o g s t h d).
Proof. unfold __get_url_track_ecommerce_order. frame. Qed.

Lemma track_ecommerce_cart_update_sent g :
  preserves sent (__get_url_track_ecommerce_cart_update g).
Proof. unfold __get_url_track_ecommerce_cart_update. frame. Qed.

(** *** How the operations fail *)

Lemma _get_request_no_referer site w :
  referer (trk w) = None ->
  _get_request site w = (Raise (AttributeError "referer"), drawn w).
Proof.
  intro H. unfold _get_request.
  cbv [bind gets randint getattr_referer raise trk rng_pos sent].
  destruct w as [t n l]; simpl in *. now rewrite H.
Qed.

End Properties.

#[export] Hint Resolve randint_trk randint_sent modify_trk_sent getattr_referer_frame
  _get_request_trk _get_request_sent _get_timestamp_sent
  track_action_sent track_site_search_sent track_event_sent track_ecommerce_sent
  track_ecommerce_order_sent track_ecommerce_cart_update_sent : py_frame.

(** ** Base parameters *)

Section BaseParameters.
Context {R : Runtime}.

End BaseParameters.


(** ** Failures of the tracking operations *)

Section Failures.
Context {R : Runtime}.

Lemma raises_bind {A B} (m : Py world A) (k : A -> Py world B) w P :
  raises_before_transport m w P -> raises_before_transport (bind m k) w P.
Proof.
  intros (e & w' & E & Hs & HP). exists e, w'.
  split; [|now split]. now apply bind_raise.
Qed.

Lemma raises_weaken {A} (m : Py world A) w (P Q : exn -> Prop) :
  (forall e, P e -> Q e) ->
  raises_before_transport m w P -> raises_before_transport m w Q.
Proof. intros HPQ (e & w' & E & Hs & HP). exists e, w'. auto. Qed.

Lemma after_request_no_referer {A} (k : PiwikTracker -> query -> Py world A) w :
  referer (trk w) = None -> fails_on_referer (after_request k) w.
Proof.
  intro H. unfold fails_on_referer, after_request, bind, gets.
  now rewrite (_get_request_no_referer _ w H).
Qed.

Lemma fails_on_referer_bind {A B} (m : Py world A) (k : A -> Py world B) w :
  fails_on_referer m w -> fails_on_referer (bind m k) w.
Proof. unfold fails_on_referer. apply bind_raise. Qed.

Lemma after_request_type_error {A} (k : PiwikTracker -> query -> Py world A) w :
  (forall t q w1, exists w2, k t q w1 = (Raise TypeError, w2) /\ sent w2 = sent w1) ->
  raises_before_transport (after_request k) w (fun e => serializes w -> e = TypeError).
Proof.
  intro Hk. unfold raises_before_transport, after_request, serializes, bind, gets.
  pose proof (_get_request_sent (id_site (trk w)) w) as Hs.
  destruct (_get_request (id_site (trk w)) w) as [[q|e] w1]; simpl in Hs.
  - destruct (Hk (trk w) q w1) as (w2 & E & Hs2). exists TypeError, w2.
    rewrite E. repeat split; congruence.
  - exists e, w1. repeat split; auto.
    intros (q & w2 & E). discriminate E.
Qed.

(** the four builders, as instances of [after_request] *)
Lemma track_site_search_shape s c n :
  exists k, __get_url_track_site_search s c n = after_request k
    /\ forall t q w1, exists w2, k t q w1 = (Raise TypeError, w2) /\ sent w2 = sent w1.
Proof.
  eexists (fun t q => _). split; [reflexivity|].
  intros t q w1. exists w1. split; reflexivity.
Qed.

Lemma track_action_shape u a :
  exists k, __get_url_track_action u a = after_request k
    /\ forall t q w1, exists w2, k t q w1 = (Raise TypeError, w2) /\ sent w2 = sent w1.
Proof.
  eexists (fun t q => _). split; [reflexivity|].
  intros t q w1. exists w1. split; reflexivity.
Qed.

Ltac by_shape L :=
  let k := fresh "k" in
  let E := fresh "E" in
  let Hk := fresh "Hk" in
  destruct L as (k & E & Hk); rewrite E.

Lemma track_site_search_fails s c n w :
  raises_before_transport (__get_url_track_site_search s c n) w
    (fun e => serializes w -> e = TypeError).
Proof.
  by_shape (track_site_search_shape s c n). now apply after_request_type_error.
Qed.

Lemma track_action_fails u a w :
  raises_before_transport (__get_url_track_action u a) w
    (fun e => serializes w -> e = TypeError).
Proof.
  by_shape (track_action_shape u a). now apply after_request_type_error.
Qed.

Lemma track_ecommerce_fails g s x h d w :
  raises_before_transport (__get_url_track_ecommerce g s x h d) w
    (fun e => serializes w -> e = TypeError).
Proof.
  unfold raises_before_transport, __get_url_track_ecommerce, serializes.
  cbv [bind gets].
  pose proof (_get_request_sent (id_site (trk w)) w) as Hs.
  destruct (_get_request (id_site (trk w)) w) as [[q|e] w1]; simpl in Hs.
  - cbv [lift ret modify dumps iadd_str].
    destruct (0 <? PyDict.len (ecommerce_items (trk w)));
      [destruct (json_dumps _)|];
      eexists; eexists; (split; [reflexivity|]); split; auto.
  - exists e, w1. repeat split; auto.
    intros (q & w2 & E). discriminate E.
Qed.

Lemma track_site_search_no_referer s c n w :
  referer (trk w) = None -> fails_on_referer (__get_url_track_site_search s c n) w.
Proof.
  by_shape (track_site_search_shape s c n). apply after_request_no_referer.
Qed.

Lemma track_action_no_referer u a w :
  referer (trk w) = None -> fails_on_referer (__get_url_track_action u a) w.
Proof.
  by_shape (track_action_shape u a). apply after_request_no_referer.
Qed.

Lemma track_ecommerce_no_referer g s x h d w :
  referer (trk w) = None -> fails_on_referer (__get_url_track_ecommerce g s x h d) w.
Proof.
  intro H. unfold fails_on_referer, __get_url_track_ecommerce. cbv [bind gets].
  now rewrite (_get_request_no_referer _ w H).
Qed.

Lemma do_track_action_illegal u a w :
  legal_action a = false -> do_track_action u a w = (Raise InvalidParameter, w).
Proof.
  unfold do_track_action, legal_action. now intros ->.
Qed.

Lemma do_track_action_legal u a :
  legal_action a = true ->
  do_track_action u a = bind (__get_url_track_action u a) _send_request.
Proof.
  unfold do_track_action, legal_action. now intros ->.
Qed.

Lemma _send_request_no_api_url qv w :
  api_url (trk w) = VNone -> _send_request qv w = (Raise ConfigurationError, w).
Proof.
  intro H. unfold _send_request, bind, gets. now rewrite H.
Qed.

Lemma execute_sends q w w1 :
  _get_request (id_site (trk w)) w = (Ok q, w1) ->
  is_not_none (api_url (trk w)) = true ->
  exists r w2, execute w = (r, w2)
    /\ sent w2 = (sent w ++ [prepare_request (UDict q) (trk w)])%list.
Proof.
  intros E Hurl.
  pose proof (_get_request_trk (id_site (trk w)) w) as Ht.
  pose proof (_get_request_sent (id_site (trk w)) w) as Hs.
  rewrite E in Ht, Hs. simpl in Ht, Hs.
  unfold execute, _send_request. cbv [bind gets]. rewrite E.
  rewrite Ht, Hurl. cbv [negb session_send]. rewrite <- Hs.
  destruct (perform_get _); eexists; eexists; split; reflexivity.
Qed.

Lemma execute_no_api_url w :
  api_url (trk w) = VNone ->
  raises_before_transport execute w (fun e => serializes w -> e = ConfigurationError).
Proof.
  intro Hurl. unfold raises_before_transport, execute, serializes. cbv [bind gets].
  pose proof (_get_request_trk (id_site (trk w)) w) as Ht.
  pose proof (_get_request_sent (id_site (trk w)) w) as Hs.
  destruct (_get_request (id_site (trk w)) w) as [[q|e] w1]; simpl in Ht, Hs.
  - rewrite _send_request_no_api_url by congruence.
    exists ConfigurationError, w1. auto.
  - exists e, w1. repeat split; auto.
    intros (q & w2 & E). discriminate E.
Qed.

(** C5, as the code has it: in every tracker state, do_track_site_search,
    do_track_ecommerce_order, do_track_ecommerce_cart_update and
    do_track_action with action type download or link raise before any
    request reaches the transport, and the exception is a type error
    whenever the base serialization returns its dictionary;
    do_track_action with any other action type raises the
    invalid-parameter error first, leaving the state untouched; execute,
    when the serialization returns dictionary [q] and the API URL is set,
    hands a request with parameters [q] to the transport. *)
Theorem C5_builders_raise_type_error (w : world) :
  let type_error := fun e => serializes w -> e = TypeError in
  (forall s c n,
      raises_before_transport (do_track_site_search s c n) w type_error)
  /\ (forall o g s x h d,
        raises_before_transport (do_track_ecommerce_order o g s x h d) w type_error)
  /\ (forall g,
        raises_before_transport (do_track_ecommerce_cart_update g) w type_error)
  /\ (forall u a, legal_action a = true ->
        raises_before_transport (do_track_action u a) w type_error)
  /\ (forall u a, legal_action a = false ->
        do_track_action u a w = (Raise InvalidParameter, w))
  /\ (forall q w1,
        _get_request (id_site (trk w)) w = (Ok q, w1) ->
        is_not_none (api_url (trk w)) = true ->
        exists r w2, execute w = (r, w2)
          /\ sent w2 = (sent w ++ [prepare_request (UDict q) (trk w)])%list
          /\ req_params (prepare_request (UDict q) (trk w)) = UDict q).
Proof.
  intro type_error. repeat split.
  - intros s c n. apply raises_bind, track_site_search_fails.
  - intros o g s x h d. unfold do_track_ecommerce_order, __get_url_track_ecommerce_order.
    do 2 apply raises_bind. apply track_ecommerce_fails.
  - intro g. unfold do_track_ecommerce_cart_update, __get_url_track_ecommerce_cart_update.
    do 2 apply raises_bind. apply track_ecommerce_fails.
  - intros u a Ha. rewrite (do_track_action_legal u a Ha).
    apply raises_bind, track_action_fails.
  - intros u a Ha. now apply do_track_action_illegal.
  - intros q w1 E Hurl. destruct (execute_sends q w w1 E Hurl) as (r & w2 & Ex & Hs).
    exists r, w2. repeat split; assumption.
Qed.

(** C6, as the code has it: on every tracker whose referer attribute was
    never assigned, every serialization raises the attribute error, and
    so does every tracking operation that reaches the serializer:
    execute, do_track_site_search, do_track_ecommerce_order,
    do_track_ecommerce_cart_update, and do_track_action with action type
    download or link; with any other action type do_track_action raises
    the invalid-parameter error before serializing. *)
Theorem C6_missing_referer (w : world) :
  referer (trk w) = None ->
  (forall site, fails_on_referer (_get_request site) w)
  /\ fails_on_referer execute w
  /\ (forall s c n, fails_on_referer (do_track_site_search s c n) w)
  /\ (forall o g s x h d, fails_on_referer (do_track_ecommerce_order o g s x h d) w)
  /\ (forall g, fails_on_referer (do_track_ecommerce_cart_update g) w)
  /\ (forall u a, legal_action a = true -> fails_on_referer (do_track_action u a) w)
  /\ (forall u a, legal_action a = false ->
        do_track_action u a w = (Raise InvalidParameter, w)).
Proof.
  intro H. repeat split.
  - intro site. now apply _get_request_no_referer.
  - now apply (after_request_no_referer (fun _ q => _send_request (UDict q))).
  - intros s c n. now apply fails_on_referer_bind, track_site_search_no_referer.
  - intros o g s x h d. unfold do_track_ecommerce_order, __get_url_track_ecommerce_order.
    do 2 apply fails_on_referer_bind. now apply track_ecommerce_no_referer.
  - intro g. unfold do_track_ecommerce_cart_update, __get_url_track_ecommerce_cart_update.
    do 2 apply fails_on_referer_bind. now apply track_ecommerce_no_referer.
  - intros u a Ha. rewrite (do_track_action_legal u a Ha).
    now apply fails_on_referer_bind, track_action_no_referer.
  - intros u a Ha. now apply do_track_action_illegal.
Qed.

End Failures.

(** C5 as stated fails: with an action type other than download or link,
    do_track_action raises the invalid-parameter error, not a type error,
    although the serialization would return; and where the referer
    attribute is missing the builders stop at the attribute error. *)
Lemma C5_not_always_type_error :
  (exists q w1, @_get_request sample_runtime (VInt 1) site1_url_referer = (Ok q, w1))
  /\ fst (@do_track_action sample_runtime (VStr "http://example.com/a.zip") (VStr "bogus")
            site1_url_referer) = Raise InvalidParameter
  /\ fst (@do_track_site_search sample_runtime (VStr "shoes") VNone VNone site1_url_only)
     = Raise (AttributeError "referer").
Proof. split; [eexists; eexists; vm_compute; reflexivity|]. split; reflexivity. Qed.

Lemma C5_witness :
  legal_action (VStr "link") = true
  /\ raises_before_transport
       (@do_track_action sample_runtime (VStr "http://example.org") (VStr "link"))
       site1_url_referer
       (fun e => @serializes sample_runtime site1_url_referer -> e = TypeError).
Proof.
  split; [reflexivity|].
  apply (proj1 (proj2 (proj2 (proj2
           (@C5_builders_raise_type_error sample_runtime site1_url_referer))))).
  reflexivity.
Defined.

(** C6 as stated fails: on a tracker that has just been constructed,
    do_track_action with an action type other than download or link raises
    the invalid-parameter error, not an attribute error. *)
Lemma C6_illegal_action_first :
  referer (trk (fresh (VInt 1))) = None
  /\ @do_track_action sample_runtime (VStr "http://example.com/a.zip") (VStr "bogus")
       (fresh (VInt 1))
     = (Raise InvalidParameter, fresh (VInt 1)).
Proof. split; reflexivity. Qed.

Lemma C6_witness :
  referer (trk (fresh (VInt 1))) = None
  /\ fails_on_referer (@execute sample_runtime) (fresh (VInt 1))
  /\ (legal_action (VStr "download") = true ->
      fails_on_referer
        (@do_track_action sample_runtime (VStr "http://example.com/a.zip") (VStr "download"))
        (fresh (VInt 1))).
Proof.
  split; [reflexivity|].
  pose proof (@C6_missing_referer sample_runtime (fresh (VInt 1)) eq_refl) as H.
  split; [apply H|]. intro L. now apply H.
Defined.



(** ** Setters *)

Section Setters.
Context {R : Runtime}.

Lemma mem_known_getitem p :
  PyDict.mem p KNOWN_PLUGINS = true ->
  exists code, getitem p KNOWN_PLUGINS = Ok code.
Proof.
  unfold PyDict.mem, getitem. destruct (PyDict.get p KNOWN_PLUGINS); [eauto|discriminate].
Qed.

Lemma set_plugins_loop_known p v rest code w :
  PyDict.mem p KNOWN_PLUGINS = true ->
  getitem p KNOWN_PLUGINS = Ok code ->
  set_plugins_loop ((p, v) :: rest) w
  = set_plugins_loop rest
      (with_trk (fun t => assign_plugins (PyDict.set code v (plugins t)) t) w).
Proof.
  intros Hm Hc. cbn [set_plugins_loop]. rewrite Hm. cbn [negb].
  unfold bind, lift, modify. now rewrite Hc.
Qed.

(** the loop over a prefix of known plugins runs to its end, and the loop
    over a longer list goes on from the state it leaves *)
Lemma set_plugins_loop_app pre :
  (forall kv, In kv pre -> PyDict.mem (fst kv) KNOWN_PLUGINS = true) ->
  forall w, exists w1,
    set_plugins_loop pre w = (Ok tt, w1)
    /\ forall rest, set_plugins_loop (pre ++ rest)%list w = set_plugins_loop rest w1.
Proof.
  induction pre as [|[p0 v0] pre IH]; intros Hk w.
  - exists w. split; reflexivity.
  - assert (H0 : PyDict.mem p0 KNOWN_PLUGINS = true) by (apply (Hk (p0, v0)); now left).
    destruct (mem_known_getitem p0 H0) as (code & Hc).
    assert (Hk' : forall kv, In kv pre -> PyDict.mem (fst kv) KNOWN_PLUGINS = true)
      by (intros kv Hin; apply Hk; now right).
    destruct (IH Hk'
                (with_trk (fun t => assign_plugins (PyDict.set code v0 (plugins t)) t) w))
      as (w1 & E1 & E2).
    exists w1. split.
    + now rewrite (set_plugins_loop_known p0 v0 pre code w H0 Hc).
    + intro rest. rewrite <- app_comm_cons.
      now rewrite (set_plugins_loop_known p0 v0 (pre ++ rest)%list code w H0 Hc).
Qed.


(** C3 on the code: whatever the slot, name and value, a scope other than
    page ends in a name error at the misspelt [scopr], so neither the
    visit nor the event mapping is ever written and an unknown scope is
    not answered with the invalid-parameter error; only the page scope
    stores the pair at its slot. *)
Theorem C3_set_custom_variable_scopes (w : world) (slot : Z) (name value scope : pyval) :
  set_custom_variable (VInt slot) name value (VStr "visit") w
    = (Raise (NameError "scopr"), w)
  /\ set_custom_variable (VInt slot) name value (VStr "event") w
    = (Raise (NameError "scopr"), w)
  /\ set_custom_variable (VInt slot) name value (VStr "site") w
    = (Raise (NameError "scopr"), w)
  /\ set_custom_variable (VInt slot) name value scope w
    = (if str_eq scope "page"
       then (Ok (VBool true),
             with_trk (fun t => assign_page_custom_var
                                  (PyDict.set slot (name, value) (page_custom_var t)) t) w)
       else (Raise (NameError "scopr"), w))
  /\ PyDict.get slot
       (page_custom_var
          (trk (exec (set_custom_variable (VInt slot) name value (VStr "page")) w)))
     = Some (name, value).
Proof.
  repeat split; try reflexivity.
  - unfold set_custom_variable. destruct (str_eq scope "page"); reflexivity.
  - unfold exec. simpl. apply PyDictFacts.get_set_eq.
Qed.
End Setters.



(** ** Transport *)

Section Transport.
Context {R : Runtime}.

(** C10: once the API URL is set and the transport answers the prepared
    request with a response, _send_request returns a result (it does not
    raise) carrying the status code and the body; ok is true and error
    false for status 200 and 204, ok is false and error true for every
    other status. *)
Theorem C10_response_classification (w : world) (qv : urlval) (resp : http_response) :
  is_not_none (api_url (trk w)) = true ->
  perform_get (prepare_request qv (trk w)) = Ok resp ->
  exists r w',
    _send_request qv w = (Ok r, w')
    /\ sent w' = (sent w ++ [prepare_request qv (trk w)])%list
    /\ status r = status_code resp
    /\ body_bytes r = content resp
    /\ body_str r = text resp
    /\ (status_code resp = 200 \/ status_code resp = 204 -> ok r = true /\ error r = false)
    /\ (status_code resp <> 200 -> status_code resp <> 204 ->
        ok r = false /\ error r = true).
Proof.
  intros Hurl Hresp. unfold _send_request. cbv [bind gets session_send].
  rewrite Hurl, Hresp. cbn [negb]. eexists. eexists.
  split; [reflexivity|]. cbn [status body_bytes body_str ok error sent existsb].
  repeat split; try reflexivity.
  - destruct H as [-> | ->]; reflexivity.
  - destruct H as [-> | ->]; reflexivity.
  - destruct (Z.eqb_spec (status_code resp) 200); [contradiction|].
    destruct (Z.eqb_spec (status_code resp) 204); [contradiction|]. reflexivity.
  - destruct (Z.eqb_spec (status_code resp) 200); [contradiction|].
    destruct (Z.eqb_spec (status_code resp) 204); [contradiction|]. reflexivity.
Qed.
End Transport.

Lemma C10_witness :
  is_not_none (api_url (trk site1_ready)) = true
  /\ @perform_get rejecting_runtime
       (@prepare_request (UDict [("idsite", VInt 1)]) (trk site1_ready))
     = Ok {| status_code := 500; content := []; text := "Internal Server Error" |}
  /\ exists r w',
       @_send_request rejecting_runtime (UDict [("idsite", VInt 1)]) site1_ready = (Ok r, w')
       /\ ok r = false /\ error r = true /\ status r = 500.
Proof.
  split; [reflexivity|]. split; [reflexivity|].
  destruct (@C10_response_classification rejecting_runtime site1_ready
              (UDict [("idsite", VInt 1)])
              {| status_code := 500; content := []; text := "Internal Server Error" |}
              eq_refl eq_refl)
    as (r & w' & E & _ & Hst & _ & _ & _ & Hbad).
  exists r, w'. split; [exact E|].
  destruct (Hbad ltac:(discriminate) ltac:(discriminate)) as [Hok Herr].
  repeat split; assumption.
Defined.

(** the two outcomes on concrete collectors *)
Example execute_accepted :
  exists r w', @execute sample_runtime site1_ready = (Ok r, w')
    /\ ok r = true /\ error r = false /\ status r = 204 /\ length (sent w') = 1%nat.
Proof. eexists. eexists. vm_compute. repeat split. Qed.

Example execute_rejected :
  exists r w', @execute rejecting_runtime site1_ready = (Ok r, w')
    /\ ok r = false /\ error r = true /\ status r = 500
    /\ body_str r = "Internal Server Error".
Proof. eexists. eexists. vm_compute. repeat split. Qed.

(** ** E-commerce items *)

Section Ecommerce.
Context {R : Runtime}.

(** Where the builder gets past the serializer and the encoder, the items
    are gone afterwards, although the builder itself then raises. *)
Lemma track_ecommerce_clears g s x h d w q w1 :
  _get_request (id_site (trk w)) w = (Ok q, w1) ->
  (ecommerce_items (trk w) = []
   \/ exists j, json_dumps (VList (PyDict.values (ecommerce_items (trk w)))) = Some j) ->
  exists w2,
    __get_url_track_ecommerce g s x h d w = (Raise TypeError, w2)
    /\ ecommerce_items (trk w2) = [].
Proof.
  intros E Hj. unfold __get_url_track_ecommerce. cbv [bind gets]. rewrite E.
  cbv [lift ret modify dumps iadd_str].
  destruct Hj as [-> | (j & ->)].
  - eexists. split; reflexivity.
  - destruct (0 <? PyDict.len (ecommerce_items (trk w))); eexists; split; reflexivity.
Qed.

(** C2 on the code: on a tracker set up with site id, URL, API URL and one
    item, the order operation stops at the read of the never-assigned
    referer attribute, before the items are cleared: the item is still
    there afterwards. *)
Theorem C2_order_keeps_items_without_referer :
  order1 cart_no_referer = (Raise (AttributeError "referer"), drawn cart_no_referer)
  /\ ecommerce_items (trk cart_no_referer)
     = [("SKU1", VTuple [VStr "SKU1"; VStr "Widget"; VStr "Widgets"; VInt 80; VInt 1])]
  /\ ecommerce_items (trk (exec order1 cart_no_referer))
     = ecommerce_items (trk cart_no_referer).
Proof.
  assert (E : order1 cart_no_referer
              = (Raise (AttributeError "referer"), drawn cart_no_referer)).
  { unfold order1, do_track_ecommerce_order, __get_url_track_ecommerce_order.
    do 2 apply fails_on_referer_bind. now apply track_ecommerce_no_referer. }
  split; [exact E|]. split; [reflexivity|].
  unfold exec. now rewrite E.
Qed.
End Ecommerce.

(** With the referrer assigned, the first order clears the items and
    raises at [+=]; the second raises as well: no order ever yields a
    parameter set, and nothing is sent. *)
Example order_twice_with_referer :
  let first := @order1 sample_runtime cart_with_referer in
  let second := @order1 sample_runtime (snd first) in
  fst first = Raise TypeError
  /\ ecommerce_items (trk (snd first)) = []
  /\ fst second = Raise TypeError
  /\ sent (snd second) = [].
Proof. vm_compute. repeat split. Qed.

(** ** Custom variables in the serialization *)

(** C8 on the code: the test in front of e_cvar measures the page-scope
    mapping. With one page-scope variable and no event-scope variable the
    key e_cvar is emitted, holding the encoding of the empty mapping; with
    one event-scope variable and no page-scope variable it is missing. *)
Theorem C8_e_cvar_follows_page_scope :
  let page_only :=
    exec (set_custom_variable (VInt 1) (VStr "n") (VStr "v") (VStr "page"))
      site1_url_referer in
  let event_only :=
    with_trk (assign_event_custom_var [(1, (VStr "n", VStr "v"))]) site1_url_referer in
  (event_custom_var (trk page_only) = []
   /\ exists q w', @_get_request sample_runtime (VInt 1) page_only = (Ok q, w')
        /\ PyDict.get "e_cvar" q = Some (VStr "{}")
        /\ PyDict.get "cvar" q
           = Some (VStr (json_text (VDict [(VInt 1, VTuple [VStr "n"; VStr "v"])]))))
  /\ (event_custom_var (trk event_only) <> [] /\ page_custom_var (trk event_only) = []
      /\ exists q w', @_get_request sample_runtime (VInt 1) event_only = (Ok q, w')
           /\ PyDict.get "e_cvar" q = None).
Proof.
  intros page_only event_only. split.
  - split; [reflexivity|]. eexists. eexists. vm_compute. repeat split.
  - split; [discriminate|]. split; [reflexivity|].
    eexists. eexists. vm_compute. repeat split.
Qed.

(** ** Keys of the serialized mapping *)

Lemma get_set_if_ne c (k k' : string) v (q : query) :
  k <> k' -> PyDict.get k' (set_if c k v q) = PyDict.get k' q.
Proof.
  intro N. unfold set_if. destruct c; [now apply PyDictFacts.get_set_ne|reflexivity].
Qed.

Lemma get_set_if_true (k : string) v (q : query) :
  PyDict.get k (set_if true k v q) = Some v.
Proof. apply PyDictFacts.get_set_eq. Qed.

Lemma get_map_values {A B} (f : A -> B) (k : string) (d : pydict string A) :
  PyDict.get k (map (fun kv => (fst kv, f (snd kv))) d) = option_map f (PyDict.get k d).
Proof.
  induction d as [|[k0 v0] d IH]; simpl; [reflexivity|].
  destruct (k =? k0)%string; auto.
Qed.

Lemma get_update_if_absent {V} (c : bool) (src q : pydict string V) (k : string) :
  PyDict.get k src = None ->
  PyDict.get k (if c then PyDict.update src q else q) = PyDict.get k q.
Proof. intro H. destruct c; [now apply PyDictFacts.get_update_absent|reflexivity]. Qed.

Lemma mem_false_get {V} (k : string) (d : pydict string V) :
  PyDict.mem k d = false -> PyDict.get k d = None.
Proof. unfold PyDict.mem. destruct (PyDict.get k d); [discriminate|reflexivity]. Qed.

Lemma post_true {A} (m : Py world A) w : post m w (fun _ _ => True).
Proof. unfold post. destruct (m w) as [[a|e] w1]; exact I. Qed.

Lemma post_any {A B} (m : Py world A) (k : A -> Py world B) w (Q : B -> world -> Prop) :
  (forall a w1, post (k a) w1 Q) -> post (bind m k) w Q.
Proof. intro H. apply post_bind with (I := fun _ _ => True); [apply post_true | auto]. Qed.

Lemma post_gets {A B} (g : world -> A) (k : A -> Py world B) w (Q : B -> world -> Prop) :
  post (k (g w)) w Q -> post (bind (gets g) k) w Q.
Proof. intro H. exact H. Qed.

Lemma post_lift_bind {A B} (o : outcome A) (k : A -> Py world B) w (Q : B -> world -> Prop) :
  (forall a, o = Ok a -> post (k a) w Q) -> post (bind (lift o) k) w Q.
Proof. intro H. destruct o as [a|e]; [now apply H | exact I]. Qed.

(** a lookup under a key that the steps in between do not write *)
Ltac untouched :=
  repeat first
    [ rewrite get_set_if_ne by discriminate
    | rewrite PyDictFacts.get_set_ne by discriminate
    | rewrite get_update_if_absent by assumption ];
  first [ assumption | apply get_set_if_true | reflexivity ].

(** one guarded block of the serializer, with [Inv] as invariant of the
    mapping built so far *)
Ltac guarded Inv tac :=
  apply post_bind with (I := Inv);
  [ match goal with |- post (if ?c then _ else _) _ _ => destruct c end;
    [ repeat (apply post_lift_bind; intros ? _); apply post_ret; tac
    | apply post_ret; tac ]
  | intros ? ? ? ].

Section VisitorId.
Context {R : Runtime}.

(** Once written under cid and _id, the visitor id stays there: the later
    steps write other keys, and the dimension and plugin loops write the
    keys of their mappings. *)
Lemma visitor_id_kept (key : string) (w : world) (site : pyval) (v : pyval) :
  visitor_id (trk w) = v -> is_not_none v = true ->
  key = "cid" \/ key = "_id" ->
  free_key key (trk w) = true ->
  post (_get_request site) w (fun q _ => carries key v q).
Proof.
  intros Hv Hn Hkey Hfree. unfold _get_request.
  apply andb_prop in Hfree. destruct Hfree as [Hd Hp].
  apply negb_true_iff, mem_false_get in Hd.
  apply negb_true_iff, mem_false_get in Hp.
  assert (Hp' : PyDict.get key (map (fun kv : string * Z => (fst kv, VInt (snd kv)))
                                  (plugins (trk w))) = None)
    by (rewrite get_map_values, Hp; reflexivity).
  apply post_gets. cbv zeta.
  do 4 (apply post_any; intros).
  rewrite Hv, Hn.
  destruct Hkey as [-> | ->].
  - do 5 guarded (fun (q : query) (_ : world) => carries "cid" v q)
           ltac:(unfold carries in *; untouched).
    apply post_ret.
    destruct (is_not_none (id_goal (trk w))); [destruct (is_not_none (revenue (trk w)))|];
      unfold carries in *; untouched.
  - do 5 guarded (fun (q : query) (_ : world) => carries "_id" v q)
           ltac:(unfold carries in *; untouched).
    apply post_ret.
    destruct (is_not_none (id_goal (trk w))); [destruct (is_not_none (revenue (trk w)))|];
      unfold carries in *; untouched.
Qed.

End VisitorId.



(** ** Event-scope custom variables *)

Section EventVariables.
Context {R : Runtime}.

(** Whenever the serialization returns, and neither a custom dimension nor
    a plugin entry is keyed e_cvar, the key e_cvar is in the mapping exactly
    when the page-scope mapping is not empty: the event-scope mapping only
    supplies the value. *)
Lemma e_cvar_guarded_by_page_scope (w : world) (site : pyval) :
  free_key "e_cvar" (trk w) = true ->
  post (_get_request site) w
    (fun q _ => PyDict.mem "e_cvar" q = (0 <? PyDict.len (page_custom_var (trk w)))).
Proof.
  intro Hfree. unfold _get_request.
  apply andb_prop in Hfree. destruct Hfree as [Hd Hp].
  apply negb_true_iff, mem_false_get in Hd.
  apply negb_true_iff, mem_false_get in Hp.
  assert (Hp' : PyDict.get "e_cvar" (map (fun kv : string * Z => (fst kv, VInt (snd kv)))
                                       (plugins (trk w))) = None)
    by (rewrite get_map_values, Hp; reflexivity).
  apply post_gets. cbv zeta.
  do 2 (apply post_any; intros).
  do 2 guarded (fun (q : query) (_ : world) => PyDict.get "e_cvar" q = None) untouched.
  set (c := 0 <? PyDict.len (page_custom_var (trk w))).
  apply post_bind with (I := fun q _ => PyDict.mem "e_cvar" q = c).
  { destruct c.
    - apply post_lift_bind; intros j _. apply post_ret. apply PyDictFacts.mem_set_eq.
    - apply post_ret. unfold PyDict.mem.
      replace (PyDict.get "e_cvar" _) with (@None pyval); [reflexivity|].
      symmetry. untouched. }
  clearbody c. intros q w5 Hq.
  do 4 guarded (fun (q : query) (_ : world) => PyDict.mem "e_cvar" q = c)
         ltac:(unfold PyDict.mem in *; untouched).
  apply post_ret.
  destruct (is_not_none (id_goal (trk w))); [destruct (is_not_none (revenue (trk w)))|];
    unfold PyDict.mem in *; untouched.
Qed.
End EventVariables.

(** * Further properties *)

(** ** Tools *)

Lemma not_in_keys_get {V} (k : string) (d : pydict string V) :
  ~ In k (PyDict.keys d) -> PyDict.get k d = None.
Proof.
  induction d as [|[k0 v0] d IH]; simpl; intro N; [reflexivity|].
  destruct (String.eqb_spec k k0) as [->|Hne]; [exfalso; apply N; now left|].
  apply IH. intro Hin. apply N. now right.
Qed.

Lemma get_update_present {V} (k : string) (v : V) (src q : pydict string V) :
  NoDup (PyDict.keys src) -> PyDict.get k src = Some v ->
  PyDict.get k (PyDict.update src q) = Some v.
Proof.
  unfold PyDict.update. revert q.
  induction src as [|[k0 v0] src IH]; intros q Hnd Hk; simpl in *; [discriminate|].
  inversion Hnd as [|? ? Hnotin Hnd']; subst.
  destruct (String.eqb_spec k k0) as [->|Hne].
  - inversion Hk; subst v0.
    change (PyDict.get k0 (PyDict.update src (PyDict.set k0 v q)) = Some v).
    rewrite PyDictFacts.get_update_absent by now apply not_in_keys_get.
    apply PyDictFacts.get_set_eq.
  - now apply IH.
Qed.

Lemma get_some_len_pos {K V} `{Key K} (k : K) (v : V) (d : pydict K V) :
  PyDict.get k d = Some v -> (0 <? PyDict.len d) = true.
Proof. destruct d; [discriminate|reflexivity]. Qed.

Lemma keys_map_values {A B} (f : A -> B) (d : pydict string A) :
  PyDict.keys (map (fun kv => (fst kv, f (snd kv))) d) = PyDict.keys d.
Proof. unfold PyDict.keys. rewrite map_map. reflexivity. Qed.

Lemma get_set_if_same c (k : string) v (q : query) :
  PyDict.get k q = None -> PyDict.get k (set_if c k v q) = entry c v.
Proof. intro H. destruct c; simpl; [apply PyDictFacts.get_set_eq | exact H]. Qed.

Lemma bind_gets {A B} (g : world -> A) (k : A -> Py world B) w :
  bind (gets g) k w = k (g w) w.
Proof. reflexivity. Qed.

(** a lookup after the writes of other keys *)
Ltac looked_up :=
  repeat first
    [ rewrite get_set_if_ne by discriminate
    | rewrite PyDictFacts.get_set_ne by discriminate
    | rewrite get_update_if_absent by assumption ];
  first [ assumption | apply get_set_if_true | apply PyDictFacts.get_set_eq | reflexivity ].

(** a lookup of a key that one of the conditional writes in front sets *)
Ltac written :=
  repeat first
    [ rewrite get_set_if_ne by discriminate
    | rewrite PyDictFacts.get_set_ne by discriminate
    | rewrite get_update_if_absent by assumption ];
  first [ assumption | reflexivity
        | apply get_set_if_same;
          repeat first
            [ rewrite get_set_if_ne by discriminate
            | rewrite PyDictFacts.get_set_ne by discriminate ];
          first [ assumption | reflexivity ] ].

Ltac split_all :=
  repeat match goal with
         | H : _ /\ _ |- _ => destruct H
         end;
  repeat split.

(** what [free_key k] says about the two mappings the loops copy *)
Ltac free_in H k :=
  let Hd := fresh "Hd" in
  let Hp := fresh "Hp" in
  let Hq := fresh "Hq" in
  apply andb_prop in H; destruct H as [Hd Hp];
  apply negb_true_iff, mem_false_get in Hd;
  apply negb_true_iff, mem_false_get in Hp;
  assert (Hq : PyDict.get k (map (fun kv : string * Z => (fst kv, VInt (snd kv)))
                             (plugins (trk _))) = None)
    by (rewrite get_map_values, Hp; reflexivity).

(** the keys of a list are free on a concrete tracker *)
Ltac all_free :=
  let k := fresh "k" in
  let Hin := fresh "Hin" in
  intros k Hin; simpl in Hin;
  repeat (destruct Hin as [<- | Hin]; [reflexivity|]); contradiction.

(** a key not among the late ones passes the late writes *)
Ltac late N :=
  repeat first
    [ rewrite PyDictFacts.get_set_ne by (intro; subst; apply N; simpl; tauto)
    | rewrite get_set_if_ne by (intro; subst; apply N; simpl; tauto) ].

(** ** What the serializer touches *)

Section SerializerFrame.
Context {R : Runtime}.

Lemma bind_randint {B} (a b : Z) (k : Z -> Py world B) w :
  bind (randint a b) k w = k (a + draws (rng_pos w) mod (b - a + 1)) (drawn w).
Proof. reflexivity. Qed.

Lemma post_randint {B} (a b : Z) (k : Z -> Py world B) w (Q : B -> world -> Prop) :
  post (k (a + draws (rng_pos w) mod (b - a + 1))) (drawn w) Q ->
  post (bind (randint a b) k) w Q.
Proof. intro H. exact H. Qed.

Lemma post_referer {B} (k : pyval -> Py world B) w ref (Q : B -> world -> Prop) :
  referer (trk w) = Some ref ->
  post (k ref) w Q -> post (bind getattr_referer k) w Q.
Proof.
  intros H HP. unfold post, getattr_referer in *. cbv [bind gets].
  rewrite H. exact HP.
Qed.

Lemma dumps_ok v j : dumps v = Ok j -> json_dumps v = Some j.
Proof. unfold dumps. destruct (json_dumps v); [intro E; now inversion E | discriminate]. Qed.

Lemma _get_request_draws_once (site : pyval) (w : world) :
  rng_pos (snd (_get_request site w)) = S (rng_pos w).
Proof.
  unfold _get_request.
  rewrite bind_gets. cbv zeta. rewrite bind_randint.
  change (S (rng_pos w)) with (rng_pos (drawn w)).
  generalize (drawn w). intro w1.
  match goal with |- rng_pos (snd (?m w1)) = _ => assert (P : preserves rng_pos m) end.
  { frame. }
  apply P.
Qed.

(** X1: whether it returns or raises, a serialization leaves the tracker
    and the log of sent requests as they were and takes exactly one output
    from the random generator. *)
Theorem X1_serialization_read_only (site : pyval) (w : world) :
  trk (snd (_get_request site w)) = trk w
  /\ sent (snd (_get_request site w)) = sent w
  /\ rng_pos (snd (_get_request site w)) = S (rng_pos w).
Proof.
  split; [apply _get_request_trk|]. split; [apply _get_request_sent|].
  apply _get_request_draws_once.
Qed.
End SerializerFrame.

(** up to the point where the referrer has been read *)
Ltac enter ref Href :=
  unfold _get_request; apply post_gets; cbv zeta; apply post_randint; cbv beta zeta;
  apply (post_referer _ (drawn _) ref _ Href); cbv beta zeta.

(** ** Keys of the serialized mapping, one group at a time *)

Section SerializedKeys.
Context {R : Runtime}.

Lemma base_key_kept (k : string) (v : Z -> pyval) (site : pyval) (w : world) :
  In (k, v) [ ("idsite", fun _ => site); ("rec", fun _ => VStr "1");
              ("url", fun _ => page_url (trk w)); ("apiv", fun _ => VInt 1);
              ("rand", fun r => VInt r) ] ->
  free_key k (trk w) = true ->
  post (_get_request site) w (fun q _ => carries k (v (draws (rng_pos w) mod 100000)) q).
Proof.
  intros Hin Hfree. unfold _get_request. free_in Hfree k.
  apply post_gets. cbv zeta. apply post_randint.
  apply post_any; intros ref w1.
  simpl in Hin.
  repeat (destruct Hin as [Hin | Hin]; [inversion Hin; subst k v; clear Hin|]);
    [..|contradiction].
  all: match goal with
       | |- post _ _ (fun q _ => carries ?k ?v q) =>
           do 7 guarded (fun (q : query) (_ : world) => carries k v q)
                  ltac:(unfold carries in *; untouched)
       end.
  all: apply post_ret;
    destruct (is_not_none (id_goal (trk w))); [destruct (is_not_none (revenue (trk w)))|];
    unfold carries in *; untouched.
Qed.

(** X2: whenever a serialization returns, and no custom dimension or plugin
    entry is keyed like one of them, the mapping holds idsite (the site id
    passed in), rec="1", url (the page URL, whatever it is), apiv=1 and rand,
    the next output of the generator brought into 0..99999. *)
Theorem X2_base_parameters (site : pyval) (w : world) (q : query) (w' : world) :
  (forall k, In k ["idsite"; "rec"; "url"; "apiv"; "rand"] -> free_key k (trk w) = true) ->
  _get_request site w = (Ok q, w') ->
  carries "idsite" site q
  /\ carries "rec" (VStr "1") q
  /\ carries "url" (page_url (trk w)) q
  /\ carries "apiv" (VInt 1) q
  /\ carries "rand" (VInt (draws (rng_pos w) mod 100000)) q
  /\ 0 <= draws (rng_pos w) mod 100000 <= 99999.
Proof.
  intros F E.
  assert (K : forall k v,
             In (k, v) [ ("idsite", fun _ => site); ("rec", fun _ => VStr "1");
                         ("url", fun _ => page_url (trk w)); ("apiv", fun _ => VInt 1);
                         ("rand", fun r => VInt r) ] ->
             In k ["idsite"; "rec"; "url"; "apiv"; "rand"] ->
             carries k (v (draws (rng_pos w) mod 100000)) q).
  { intros k v Hin Hk.
    exact (post_elim _ _ _ q w' (base_key_kept k v site w Hin (F k Hk)) E). }
  repeat split.
  - apply (K "idsite" (fun _ => site)); simpl; tauto.
  - apply (K "rec" (fun _ => VStr "1")); simpl; tauto.
  - apply (K "url" (fun _ => page_url (trk w))); simpl; tauto.
  - apply (K "apiv" (fun _ => VInt 1)); simpl; tauto.
  - apply (K "rand" (fun r => VInt r)); simpl; tauto.
  - apply Z.mod_pos_bound; lia.
  - pose proof (Z.mod_pos_bound (draws (rng_pos w)) 100000). lia.
Qed.

Lemma scalar_keys (site : pyval) (w : world) (ref : pyval) :
  referer (trk w) = Some ref ->
  (forall k, In k ["referer"; "action_name"; "cip"; "token_auth"; "cookie"; "uid";
                   "send_image"] -> free_key k (trk w) = true) ->
  post (_get_request site) w
    (fun q _ =>
       PyDict.get "referer" q = entry (is_not_none ref) ref
       /\ PyDict.get "action_name" q
          = entry (is_not_none (action_name (trk w))) (action_name (trk w))
       /\ PyDict.get "cip" q = entry (is_not_none (ip (trk w))) (ip (trk w))
       /\ PyDict.get "token_auth" q
          = entry (is_not_none (token_auth (trk w))) (token_auth (trk w))
       /\ PyDict.get "cookie" q = entry (has_cookies (trk w)) (VInt 1)
       /\ PyDict.get "uid" q
          = entry (is_not_none (user_id (trk w))) (VStr (to_string (user_id (trk w))))
       /\ PyDict.get "send_image" q
          = entry (is_not_none (send_image (trk w)))
              (VStr (if truthy (send_image (trk w)) then "1" else "0"))).
Proof.
  intros Href F.
  pose proof (F "referer" ltac:(simpl; tauto)) as F1.
  pose proof (F "action_name" ltac:(simpl; tauto)) as F2.
  pose proof (F "cip" ltac:(simpl; tauto)) as F3.
  pose proof (F "token_auth" ltac:(simpl; tauto)) as F4.
  pose proof (F "cookie" ltac:(simpl; tauto)) as F5.
  pose proof (F "uid" ltac:(simpl; tauto)) as F6.
  pose proof (F "send_image" ltac:(simpl; tauto)) as F7.
  clear F.
  free_in F1 "referer". free_in F2 "action_name". free_in F3 "cip".
  free_in F4 "token_auth". free_in F5 "cookie". free_in F6 "uid". free_in F7 "send_image".
  enter ref Href.
  set (e1 := entry (is_not_none ref) ref).
  set (e2 := entry (is_not_none (action_name (trk w))) _).
  set (e3 := entry (is_not_none (ip (trk w))) _).
  set (e4 := entry (is_not_none (token_auth (trk w))) _).
  set (e5 := entry (has_cookies (trk w)) _).
  set (e6 := entry (is_not_none (user_id (trk w))) _).
  set (e7 := entry (is_not_none (send_image (trk w))) _).
  guarded (fun (q : query) (_ : world) =>
             PyDict.get "referer" q = e1 /\ PyDict.get "action_name" q = e2
             /\ PyDict.get "cip" q = None /\ PyDict.get "token_auth" q = None
             /\ PyDict.get "cookie" q = None /\ PyDict.get "uid" q = None
             /\ PyDict.get "send_image" q = None)
    ltac:(split_all; written).
  guarded (fun (q : query) (_ : world) =>
             PyDict.get "referer" q = e1 /\ PyDict.get "action_name" q = e2
             /\ PyDict.get "cip" q = e3 /\ PyDict.get "token_auth" q = e4
             /\ PyDict.get "cookie" q = e5 /\ PyDict.get "uid" q = None
             /\ PyDict.get "send_image" q = None)
    ltac:(split_all; written).
  do 5 guarded (fun (q : query) (_ : world) =>
             PyDict.get "referer" q = e1 /\ PyDict.get "action_name" q = e2
             /\ PyDict.get "cip" q = e3 /\ PyDict.get "token_auth" q = e4
             /\ PyDict.get "cookie" q = e5 /\ PyDict.get "uid" q = e6
             /\ PyDict.get "send_image" q = e7)
    ltac:(split_all; written).
  apply post_ret.
  destruct (is_not_none (id_goal (trk w))); [destruct (is_not_none (revenue (trk w)))|];
    split_all; written.
Qed.

(** X3: whenever a serialization returns on a tracker whose referrer was
    assigned [ref], and no custom dimension or plugin entry is keyed like one
    of them, each optional scalar is in the mapping exactly when its
    attribute is set and then holds the attribute: referer, action_name,
    cip (the IP), token_auth, uid (the user id as text); cookie=1 exactly
    when the has-cookies flag is on; send_image is "1" or "0" by the
    truth value of the flag, and missing only when the flag is None. *)
Theorem X3_optional_scalars (site : pyval) (w : world) (ref : pyval)
    (q : query) (w' : world) :
  referer (trk w) = Some ref ->
  (forall k, In k ["referer"; "action_name"; "cip"; "token_auth"; "cookie"; "uid";
                   "send_image"] -> free_key k (trk w) = true) ->
  _get_request site w = (Ok q, w') ->
  PyDict.get "referer" q = entry (is_not_none ref) ref
  /\ PyDict.get "action_name" q
     = entry (is_not_none (action_name (trk w))) (action_name (trk w))
  /\ PyDict.get "cip" q = entry (is_not_none (ip (trk w))) (ip (trk w))
  /\ PyDict.get "token_auth" q
     = entry (is_not_none (token_auth (trk w))) (token_auth (trk w))
  /\ PyDict.get "cookie" q = entry (has_cookies (trk w)) (VInt 1)
  /\ PyDict.get "uid" q
     = entry (is_not_none (user_id (trk w))) (VStr (to_string (user_id (trk w))))
  /\ PyDict.get "send_image" q
     = entry (is_not_none (send_image (trk w)))
         (VStr (if truthy (send_image (trk w)) then "1" else "0")).
Proof.
  intros Href F E. exact (post_elim _ _ _ q w' (scalar_keys site w ref Href F) E).
Qed.

Lemma custom_variable_keys (site : pyval) (w : world) :
  free_key "e_cvar" (trk w) = true ->
  free_key "cvar" (trk w) = true ->
  free_key "_cvar" (trk w) = true ->
  post (_get_request site) w
    (fun q _ =>
       PyDict.get "e_cvar" q
         = json_entry (0 <? PyDict.len (page_custom_var (trk w)))
             (cvars_value (event_custom_var (trk w)))
       /\ PyDict.get "cvar" q
         = json_entry (0 <? PyDict.len (page_custom_var (trk w)))
             (cvars_value (page_custom_var (trk w)))
       /\ PyDict.get "_cvar" q
         = json_entry (0 <? PyDict.len (visitor_custom_var (trk w)))
             (cvars_value (visitor_custom_var (trk w)))).
Proof.
  intros F1 F2 F3. unfold _get_request.
  free_in F1 "e_cvar". free_in F2 "cvar". free_in F3 "_cvar".
  apply post_gets. cbv zeta.
  do 2 (apply post_any; intros).
  do 2 guarded (fun (q : query) (_ : world) =>
                  PyDict.get "e_cvar" q = None /\ PyDict.get "cvar" q = None
                  /\ PyDict.get "_cvar" q = None)
         ltac:(split_all; looked_up).
  set (E := json_entry _ (cvars_value (event_custom_var (trk w)))).
  set (P := json_entry _ (cvars_value (page_custom_var (trk w)))).
  set (V := json_entry _ (cvars_value (visitor_custom_var (trk w)))).
  apply post_bind with (I := fun q _ => PyDict.get "e_cvar" q = E
                                        /\ PyDict.get "cvar" q = None
                                        /\ PyDict.get "_cvar" q = None).
  { subst E. unfold json_entry.
    destruct (0 <? PyDict.len (page_custom_var (trk w))).
    - apply post_lift_bind; intros j Hj. apply dumps_ok in Hj. rewrite Hj.
      apply post_ret. split_all; looked_up.
    - apply post_ret. split_all; looked_up. }
  clearbody E. intros ? ? ?.
  apply post_bind with (I := fun q _ => PyDict.get "e_cvar" q = E
                                        /\ PyDict.get "cvar" q = P
                                        /\ PyDict.get "_cvar" q = None).
  { subst P. unfold json_entry.
    destruct (0 <? PyDict.len (page_custom_var (trk w))).
    - apply post_lift_bind; intros j Hj. apply dumps_ok in Hj. rewrite Hj.
      apply post_ret. split_all; looked_up.
    - apply post_ret. split_all; looked_up. }
  clearbody P. intros ? ? ?.
  apply post_bind with (I := fun q _ => PyDict.get "e_cvar" q = E
                                        /\ PyDict.get "cvar" q = P
                                        /\ PyDict.get "_cvar" q = V).
  { subst V. unfold json_entry.
    destruct (0 <? PyDict.len (visitor_custom_var (trk w))).
    - apply post_lift_bind; intros j Hj. apply dumps_ok in Hj. rewrite Hj.
      apply post_ret. split_all; looked_up.
    - apply post_ret. split_all; looked_up. }
  clearbody V. intros ? ? ?.
  do 2 guarded (fun (q : query) (_ : world) =>
                  PyDict.get "e_cvar" q = E /\ PyDict.get "cvar" q = P
                  /\ PyDict.get "_cvar" q = V)
         ltac:(split_all; looked_up).
  apply post_ret.
  destruct (is_not_none (id_goal (trk w))); [destruct (is_not_none (revenue (trk w)))|];
    split_all; looked_up.
Qed.

(** X4: whenever a serialization returns, and no custom dimension or plugin
    entry is keyed e_cvar, cvar or _cvar: cvar is present exactly when the
    page-scope mapping is not empty and holds its JSON encoding; _cvar is
    present exactly when the visit-scope mapping is not empty and holds its
    JSON encoding; e_cvar holds the JSON encoding of the event-scope mapping
    and is present exactly when the page-scope mapping is not empty. *)
Theorem X4_custom_variable_keys (site : pyval) (w : world) (q : query) (w' : world) :
  free_key "e_cvar" (trk w) = true ->
  free_key "cvar" (trk w) = true ->
  free_key "_cvar" (trk w) = true ->
  _get_request site w = (Ok q, w') ->
  PyDict.get "e_cvar" q
    = json_entry (0 <? PyDict.len (page_custom_var (trk w)))
        (cvars_value (event_custom_var (trk w)))
  /\ PyDict.get "cvar" q
    = json_entry (0 <? PyDict.len (page_custom_var (trk w)))
        (cvars_value (page_custom_var (trk w)))
  /\ PyDict.get "_cvar" q
    = json_entry (0 <? PyDict.len (visitor_custom_var (trk w)))
        (cvars_value (visitor_custom_var (trk w))).
Proof.
  intros F1 F2 F3 E.
  exact (post_elim _ _ _ q w' (custom_variable_keys site w F1 F2 F3) E).
Qed.
End SerializedKeys.

Lemma X2_witness :
  exists q w',
    @_get_request sample_runtime (VInt 1) site1_full = (Ok q, w')
    /\ carries "idsite" (VInt 1) q
    /\ carries "url" (VStr "http://example.com") q
    /\ carries "rand" (VInt 4242) q.
Proof.
  destruct (@_get_request sample_runtime (VInt 1) site1_full) as [[q|e] w'] eqn:E.
  - exists q, w'. split; [reflexivity|].
    destruct (@X2_base_parameters sample_runtime (VInt 1) site1_full q w'
                ltac:(all_free) E) as (H1 & _ & H3 & _ & H5 & _).
    repeat split; assumption.
  - vm_compute in E. discriminate E.
Defined.

Lemma X3_witness :
  referer (trk site1_full) = Some VNone
  /\ exists q w',
       @_get_request sample_runtime (VInt 1) site1_full = (Ok q, w')
       /\ PyDict.get "referer" q = None
       /\ PyDict.get "action_name" q = Some (VStr "Home")
       /\ PyDict.get "cip" q = Some (VStr "192.0.2.7")
       /\ PyDict.get "token_auth" q = Some (VStr "secret")
       /\ PyDict.get "cookie" q = Some (VInt 1)
       /\ PyDict.get "uid" q = None
       /\ PyDict.get "send_image" q = Some (VStr "0").
Proof.
  split; [reflexivity|].
  destruct (@_get_request sample_runtime (VInt 1) site1_full) as [[q|e] w'] eqn:E.
  - exists q, w'. split; [reflexivity|].
    exact (@X3_optional_scalars sample_runtime (VInt 1) site1_full VNone q w'
             eq_refl ltac:(all_free) E).
  - vm_compute in E. discriminate E.
Defined.

Lemma X4_witness :
  free_key "e_cvar" (trk site1_full) = true
  /\ exists q w',
       @_get_request sample_runtime (VInt 1) site1_full = (Ok q, w')
       /\ PyDict.get "e_cvar" q = Some (VStr "{}")
       /\ PyDict.get "cvar" q
          = Some (VStr (json_text (VDict [(VInt 1, VTuple [VStr "n"; VStr "v"])])))
       /\ PyDict.get "_cvar" q = None.
Proof.
  split; [reflexivity|].
  destruct (@_get_request sample_runtime (VInt 1) site1_full) as [[q|e] w'] eqn:E.
  - exists q, w'. split; [reflexivity|].
    exact (@X4_custom_variable_keys sample_runtime (VInt 1) site1_full q w'
             eq_refl eq_refl eq_refl E).
  - vm_compute in E. discriminate E.
Defined.

(** ** Event, time, resolution, dimensions, goal *)

Section MoreKeys.
Context {R : Runtime}.

Lemma event_tracking_keys (site : pyval) (w : world) (c a n v : pyval) :
  event_tracking (trk w) = [("category", c); ("action", a); ("name", n); ("value", v)] ->
  (forall k, In k ["e_c"; "e_a"; "e_n"; "e_v"] -> free_key k (trk w) = true) ->
  post (_get_request site) w
    (fun q _ => carries "e_c" c q /\ carries "e_a" a q
                /\ carries "e_n" n q /\ carries "e_v" v q).
Proof.
  intros Hev F.
  pose proof (F "e_c" ltac:(simpl; tauto)) as F1.
  pose proof (F "e_a" ltac:(simpl; tauto)) as F2.
  pose proof (F "e_n" ltac:(simpl; tauto)) as F3.
  pose proof (F "e_v" ltac:(simpl; tauto)) as F4.
  clear F.
  free_in F1 "e_c". free_in F2 "e_a". free_in F3 "e_n". free_in F4 "e_v".
  unfold _get_request. apply post_gets. cbv zeta.
  do 7 (apply post_any; intros).
  apply post_bind with (I := fun q _ => carries "e_c" c q /\ carries "e_a" a q
                                        /\ carries "e_n" n q /\ carries "e_v" v q).
  { rewrite Hev. unfold post, carries. cbn. split_all; looked_up. }
  intros ? ? ?.
  guarded (fun (q : query) (_ : world) =>
             carries "e_c" c q /\ carries "e_a" a q /\ carries "e_n" n q /\ carries "e_v" v q)
    ltac:(unfold carries in *; split_all; looked_up).
  apply post_ret.
  destruct (is_not_none (id_goal (trk w))); [destruct (is_not_none (revenue (trk w)))|];
    unfold carries in *; split_all; looked_up.
Qed.

(** X5: after set_event_tracking(category, action, name, value), whenever
    a serialization returns, and no custom dimension or plugin entry is
    keyed e_c, e_a, e_n or e_v, the mapping holds the four values under
    e_c, e_a, e_n and e_v, a [None] name or value included. *)
Theorem X5_event_tracking_round_trip (site : pyval) (w : world) (c a n v : pyval)
    (q : query) (w' : world) :
  (forall k, In k ["e_c"; "e_a"; "e_n"; "e_v"] -> free_key k (trk w) = true) ->
  _get_request site (exec (set_event_tracking c a n v) w) = (Ok q, w') ->
  carries "e_c" c q /\ carries "e_a" a q /\ carries "e_n" n q /\ carries "e_v" v q.
Proof.
  intros F E.
  exact (post_elim _ _ _ q w'
           (event_tracking_keys site (exec (set_event_tracking c a n v) w) c a n v
              eq_refl F) E).
Qed.

Lemma local_time_keys (site : pyval) (w : world) (d : datetime) :
  local_time (trk w) = VDatetime d ->
  (forall k, In k ["h"; "m"; "s"] -> free_key k (trk w) = true) ->
  post (_get_request site) w
    (fun q _ => carries "h" (VInt (dt_hour d)) q /\ carries "m" (VInt (dt_minute d)) q
                /\ carries "s" (VInt (dt_second d)) q).
Proof.
  intros Hlt F.
  pose proof (F "h" ltac:(simpl; tauto)) as F1.
  pose proof (F "m" ltac:(simpl; tauto)) as F2.
  pose proof (F "s" ltac:(simpl; tauto)) as F3.
  clear F.
  free_in F1 "h". free_in F2 "m". free_in F3 "s".
  unfold _get_request. apply post_gets. cbv zeta.
  do 2 (apply post_any; intros).
  apply post_bind with (I := fun q _ =>
    carries "h" (VInt (dt_hour d)) q /\ carries "m" (VInt (dt_minute d)) q
    /\ carries "s" (VInt (dt_second d)) q).
  { rewrite Hlt. unfold post, carries. cbn. split_all; looked_up. }
  intros ? ? ?.
  do 6 guarded (fun (q : query) (_ : world) =>
    carries "h" (VInt (dt_hour d)) q /\ carries "m" (VInt (dt_minute d)) q
    /\ carries "s" (VInt (dt_second d)) q)
    ltac:(unfold carries in *; split_all; looked_up).
  apply post_ret.
  destruct (is_not_none (id_goal (trk w))); [destruct (is_not_none (revenue (trk w)))|];
    unfold carries in *; split_all; looked_up.
Qed.

(** X6: after set_local_time with a datetime, whenever a serialization
    returns, and no custom dimension or plugin entry is keyed h, m or s,
    the mapping holds the hour, the minute and the second of that datetime
    under h, m and s, all three together. *)
Theorem X6_local_time_round_trip (site : pyval) (w : world) (d : datetime)
    (q : query) (w' : world) :
  (forall k, In k ["h"; "m"; "s"] -> free_key k (trk w) = true) ->
  _get_request site (exec (set_local_time (VDatetime d)) w) = (Ok q, w') ->
  carries "h" (VInt (dt_hour d)) q
  /\ carries "m" (VInt (dt_minute d)) q
  /\ carries "s" (VInt (dt_second d)) q.
Proof.
  intros F E.
  exact (post_elim _ _ _ q w'
           (local_time_keys site (exec (set_local_time (VDatetime d)) w) d eq_refl F) E).
Qed.


Lemma resolution_key (site : pyval) (w : world) (a b : Z) :
  width (trk w) = VInt a -> height (trk w) = VInt b ->
  free_key "res" (trk w) = true ->
  post (_get_request site) w
    (fun q _ => carries "res" (VStr (str_of_Z a ++ "x" ++ str_of_Z b)) q).
Proof.
  intros Hw Hh F. free_in F "res".
  unfold _get_request. apply post_gets. cbv zeta.
  do 3 (apply post_any; intros).
  apply post_bind with (I := fun q _ =>
    carries "res" (VStr (str_of_Z a ++ "x" ++ str_of_Z b)) q).
  { rewrite Hw, Hh. unfold post, carries. cbn. looked_up. }
  intros ? ? ?.
  do 5 guarded (fun (q : query) (_ : world) =>
    carries "res" (VStr (str_of_Z a ++ "x" ++ str_of_Z b)) q)
    ltac:(unfold carries in *; looked_up).
  apply post_ret.
  destruct (is_not_none (id_goal (trk w))); [destruct (is_not_none (revenue (trk w)))|];
    unfold carries in *; looked_up.
Qed.

(** X8: after set_resolution with two integers, whenever a serialization
    returns, and no custom dimension or plugin entry is keyed res, the
    mapping holds under res the width in decimal, an x, and the height in
    decimal. *)
Theorem X8_resolution_round_trip (site : pyval) (w : world) (a b : Z)
    (q : query) (w' : world) :
  free_key "res" (trk w) = true ->
  _get_request site (exec (set_resolution (VInt a) (VInt b)) w) = (Ok q, w') ->
  carries "res" (VStr (str_of_Z a ++ "x" ++ str_of_Z b)) q.
Proof.
  intros F E.
  exact (post_elim _ _ _ q w'
           (resolution_key site (exec (set_resolution (VInt a) (VInt b)) w) a b
              eq_refl eq_refl F) E).
Qed.

(** X9: set_resolution accepts strings, as its docstring allows, but the
    serializer formats both dimensions with [%d]: with a string for the
    width and any height other than [None], every serialization on a
    tracker with its referrer assigned and no local time raises a type
    error, after one draw from the generator. *)
Theorem X9_resolution_as_text_raises (site : pyval) (w : world) (ref h : pyval)
    (s : string) :
  referer (trk w) = Some ref ->
  local_time (trk w) = VNone ->
  is_not_none h = true ->
  _get_request site (exec (set_resolution (VStr s) h) w)
  = (Raise TypeError, drawn (exec (set_resolution (VStr s) h) w)).
Proof.
  intros Href Hlt Hh. unfold _get_request.
  cbv [bind gets randint getattr_referer lift ret raise].
  cbn [trk rng_pos sent exec set_resolution snd modify with_trk bind ret
       referer local_time width height assign_width assign_height].
  rewrite Href, Hlt, Hh. reflexivity.
Qed.

Lemma dimension_and_plugin_keys (site : pyval) (w : world) :
  NoDup (PyDict.keys (dimensions (trk w))) ->
  NoDup (PyDict.keys (plugins (trk w))) ->
  post (_get_request site) w
    (fun q _ =>
       (forall d x, ~ In d late_keys ->
                    PyDict.get d (dimensions (trk w)) = Some x ->
                    PyDict.get d (plugins (trk w)) = None ->
                    carries d x q)
       /\ (forall c z, ~ In c late_keys ->
                       PyDict.get c (plugins (trk w)) = Some z ->
                       carries c (VInt z) q)).
Proof.
  intros ND NP. unfold _get_request. apply post_gets. cbv zeta.
  do 8 (apply post_any; intros).
  match goal with
  | |- post (bind (if ?cnd then _ else ret ?q0) _) _ _ =>
      assert (D : forall d x, PyDict.get d (dimensions (trk w)) = Some x ->
                              PyDict.get d (plugins (trk w)) = None ->
                              carries d x q0);
      [| assert (P : forall c z, PyDict.get c (plugins (trk w)) = Some z ->
                                 carries c (VInt z) q0) ]
  end.
  { intros d x Hd Hp. unfold carries.
    rewrite get_update_if_absent by (rewrite get_map_values, Hp; reflexivity).
    rewrite (get_some_len_pos d x _ Hd). now apply get_update_present. }
  { intros c z Hc. unfold carries.
    rewrite (get_some_len_pos c z _ Hc).
    apply get_update_present; [now rewrite keys_map_values|].
    rewrite get_map_values, Hc. reflexivity. }
  apply post_bind with (I := fun q _ =>
       (forall d x, ~ In d late_keys ->
                    PyDict.get d (dimensions (trk w)) = Some x ->
                    PyDict.get d (plugins (trk w)) = None ->
                    PyDict.get d q = Some x)
       /\ (forall c z, ~ In c late_keys ->
                       PyDict.get c (plugins (trk w)) = Some z ->
                       PyDict.get c q = Some (VInt z))).
  { match goal with |- post (if ?cnd then _ else _) _ _ => destruct cnd end.
    - repeat (apply post_lift_bind; intros ? _). apply post_ret. split.
      + intros d x N Hd Hp. late N. now apply D.
      + intros c z N Hc. late N. now apply P.
    - apply post_ret. split.
      + intros d x N Hd Hp. now apply D.
      + intros c z N Hc. now apply P. }
  intros q w9 [HD HP]. apply post_ret. unfold carries. split.
  - intros d x N Hd Hp.
    destruct (is_not_none (id_goal (trk w))); [destruct (is_not_none (revenue (trk w)))|];
      late N; now apply HD.
  - intros c z N Hc.
    destruct (is_not_none (id_goal (trk w))); [destruct (is_not_none (revenue (trk w)))|];
      late N; now apply HP.
Qed.

(** X10: whenever a serialization returns on a tracker whose dimension and
    plugin mappings have no repeated key, every custom dimension is in the
    mapping under its own name with its value, replacing whatever the
    serializer wrote under that name before, unless the name is a plugin
    code or one of the keys written later (_rcn, _rck, _refts, _ref,
    idgoal, revenue, debug); and every plugin entry is in the mapping under
    its short code with its version, unless the code is one of those later
    keys. *)
Theorem X10_dimensions_and_plugins_emitted (site : pyval) (w : world)
    (q : query) (w' : world) :
  NoDup (PyDict.keys (dimensions (trk w))) ->
  NoDup (PyDict.keys (plugins (trk w))) ->
  _get_request site w = (Ok q, w') ->
  (forall d x, ~ In d late_keys ->
               PyDict.get d (dimensions (trk w)) = Some x ->
               PyDict.get d (plugins (trk w)) = None ->
               carries d x q)
  /\ (forall c z, ~ In c late_keys ->
                  PyDict.get c (plugins (trk w)) = Some z ->
                  carries c (VInt z) q).
Proof.
  intros ND NP E.
  exact (post_elim _ _ _ q w' (dimension_and_plugin_keys site w ND NP) E).
Qed.

Lemma goal_and_debug_keys (site : pyval) (w : world) :
  free_key "idgoal" (trk w) = true ->
  free_key "revenue" (trk w) = true ->
  free_key "debug" (trk w) = true ->
  post (_get_request site) w
    (fun q _ =>
       PyDict.get "idgoal" q = entry (is_not_none (id_goal (trk w))) (id_goal (trk w))
       /\ PyDict.get "revenue" q
          = entry (is_not_none (id_goal (trk w)) && is_not_none (revenue (trk w)))
              (revenue (trk w))
       /\ PyDict.get "debug" q = entry (is_True (debug (trk w))) (VStr "1")).
Proof.
  intros F1 F2 F3. unfold _get_request.
  free_in F1 "idgoal". free_in F2 "revenue". free_in F3 "debug".
  apply post_gets. cbv zeta.
  do 2 (apply post_any; intros).
  do 7 guarded (fun (q : query) (_ : world) =>
                  PyDict.get "idgoal" q = None /\ PyDict.get "revenue" q = None
                  /\ PyDict.get "debug" q = None)
         ltac:(split_all; looked_up).
  apply post_ret.
  destruct (is_True (debug (trk w))); destruct (is_not_none (id_goal (trk w)));
    destruct (is_not_none (revenue (trk w))); cbn [andb set_if entry]; split_all; looked_up.
Qed.

(** X11: whenever a serialization returns, and no custom dimension or
    plugin entry is keyed idgoal, revenue or debug: idgoal is present
    exactly when a goal id is set; revenue is present exactly when both a
    goal id and a revenue are set, so a revenue without a goal is not sent;
    debug="1" is present exactly when the debug flag is the value [True]
    itself, another truthy value does not switch it on. *)
Theorem X11_goal_and_debug_keys (site : pyval) (w : world) (q : query) (w' : world) :
  free_key "idgoal" (trk w) = true ->
  free_key "revenue" (trk w) = true ->
  free_key "debug" (trk w) = true ->
  _get_request site w = (Ok q, w') ->
  PyDict.get "idgoal" q = entry (is_not_none (id_goal (trk w))) (id_goal (trk w))
  /\ PyDict.get "revenue" q
     = entry (is_not_none (id_goal (trk w)) && is_not_none (revenue (trk w)))
         (revenue (trk w))
  /\ PyDict.get "debug" q = entry (is_True (debug (trk w))) (VStr "1").
Proof.
  intros F1 F2 F3 E.
  exact (post_elim _ _ _ q w' (goal_and_debug_keys site w F1 F2 F3) E).
Qed.

(** X12: set_track_goal without a revenue keeps the revenue recorded
    before: after a goal with revenue [r1] and then a goal [g2] without
    revenue, whenever a serialization returns (and no custom dimension or
    plugin entry is keyed idgoal or revenue), the mapping holds idgoal
    [g2] together with the earlier revenue [r1]. *)
Theorem X12_goal_inherits_revenue (site : pyval) (w : world) (g1 r1 g2 : pyval)
    (q : query) (w' : world) :
  is_not_none r1 = true ->
  is_not_none g2 = true ->
  free_key "idgoal" (trk w) = true ->
  free_key "revenue" (trk w) = true ->
  free_key "debug" (trk w) = true ->
  _get_request site
    (exec (set_track_goal g2 VNone) (exec (set_track_goal g1 r1) w)) = (Ok q, w') ->
  carries "idgoal" g2 q /\ carries "revenue" r1 q.
Proof.
  intros Hr Hg F1 F2 F3 E.
  set (w2 := exec (set_track_goal g2 VNone) (exec (set_track_goal g1 r1) w)) in *.
  assert (T : id_goal (trk w2) = g2 /\ revenue (trk w2) = r1).
  { subst w2. unfold exec, set_track_goal. cbn. rewrite Hr. cbn. split; reflexivity. }
  destruct T as [Tg Tr].
  assert (D : dimensions (trk w2) = dimensions (trk w) /\ plugins (trk w2) = plugins (trk w)).
  { subst w2. unfold exec, set_track_goal. cbn. rewrite Hr. cbn. split; reflexivity. }
  destruct D as [Dd Dp].
  assert (F1' : free_key "idgoal" (trk w2) = true) by (unfold free_key; now rewrite Dd, Dp).
  assert (F2' : free_key "revenue" (trk w2) = true) by (unfold free_key; now rewrite Dd, Dp).
  assert (F3' : free_key "debug" (trk w2) = true) by (unfold free_key; now rewrite Dd, Dp).
  destruct (post_elim _ _ _ q w' (goal_and_debug_keys site w2 F1' F2' F3') E)
    as (H1 & H2 & _).
  rewrite Tg, Tr, Hg, Hr in *. split; assumption.
Qed.
End MoreKeys.

Lemma X5_witness :
  exists q w',
    @_get_request sample_runtime (VInt 1)
      (exec (set_event_tracking (VStr "video") (VStr "play") VNone (VInt 7))
         site1_url_referer) = (Ok q, w')
    /\ carries "e_c" (VStr "video") q /\ carries "e_a" (VStr "play") q
    /\ carries "e_n" VNone q /\ carries "e_v" (VInt 7) q.
Proof.
  destruct (@_get_request sample_runtime (VInt 1)
              (exec (set_event_tracking (VStr "video") (VStr "play") VNone (VInt 7))
                 site1_url_referer)) as [[q|e] w'] eqn:E.
  - exists q, w'. split; [reflexivity|].
    exact (@X5_event_tracking_round_trip sample_runtime (VInt 1) site1_url_referer
             (VStr "video") (VStr "play") VNone (VInt 7) q w' ltac:(all_free) E).
  - vm_compute in E. discriminate E.
Defined.

Lemma X6_witness :
  exists q w',
    @_get_request sample_runtime (VInt 1)
      (exec (set_local_time afternoon) site1_url_referer) = (Ok q, w')
    /\ carries "h" (VInt 14) q /\ carries "m" (VInt 30) q /\ carries "s" (VInt 5) q.
Proof.
  destruct (@_get_request sample_runtime (VInt 1)
              (exec (set_local_time afternoon) site1_url_referer)) as [[q|e] w'] eqn:E.
  - exists q, w'. split; [reflexivity|].
    exact (@X6_local_time_round_trip sample_runtime (VInt 1) site1_url_referer _ q w'
             ltac:(all_free) E).
  - vm_compute in E. discriminate E.
Defined.


Lemma X8_witness :
  free_key "res" (trk site1_url_referer) = true
  /\ exists q w',
       @_get_request sample_runtime (VInt 1)
         (exec (set_resolution (VInt 1280) (VInt 800)) site1_url_referer) = (Ok q, w')
       /\ carries "res" (VStr "1280x800") q.
Proof.
  split; [reflexivity|].
  destruct (@_get_request sample_runtime (VInt 1)
              (exec (set_resolution (VInt 1280) (VInt 800)) site1_url_referer))
    as [[q|e] w'] eqn:E.
  - exists q, w'. split; [reflexivity|].
    exact (@X8_resolution_round_trip sample_runtime (VInt 1) site1_url_referer 1280 800
             q w' eq_refl E).
  - vm_compute in E. discriminate E.
Defined.

Lemma X9_witness :
  referer (trk site1_url_referer) = Some VNone
  /\ local_time (trk site1_url_referer) = VNone
  /\ @_get_request sample_runtime (VInt 1)
       (exec (set_resolution (VStr "1280") (VStr "800")) site1_url_referer)
     = (Raise TypeError,
        drawn (exec (set_resolution (VStr "1280") (VStr "800")) site1_url_referer)).
Proof.
  split; [reflexivity|]. split; [reflexivity|].
  exact (@X9_resolution_as_text_raises sample_runtime (VInt 1) site1_url_referer VNone
           (VStr "800") "1280" eq_refl eq_refl eq_refl).
Defined.

Lemma X10_witness :
  exists q w',
    @_get_request sample_runtime (VInt 1) site1_full = (Ok q, w')
    /\ carries "dimension1" (VStr "blue") q
    /\ carries "fla" (VInt 1) q
    /\ carries "java" (VInt 6) q.
Proof.
  assert (ND : NoDup (PyDict.keys (dimensions (trk site1_full))))
    by (repeat constructor; simpl; tauto).
  assert (NP : NoDup (PyDict.keys (plugins (trk site1_full)))).
  { repeat constructor; simpl; [|tauto]. intros [H|[]]. discriminate H. }
  assert (L : forall k, In k ["dimension1"; "fla"; "java"] -> ~ In k late_keys).
  { intros k Hk Hl. simpl in Hk, Hl.
    repeat (destruct Hk as [<- | Hk];
            [repeat (destruct Hl as [Hl | Hl]; [discriminate Hl|]); exact Hl|]).
    exact Hk. }
  destruct (@_get_request sample_runtime (VInt 1) site1_full) as [[q|e] w'] eqn:E.
  - exists q, w'. split; [reflexivity|].
    destruct (@X10_dimensions_and_plugins_emitted sample_runtime (VInt 1) site1_full q w'
                ND NP E) as [HD HP].
    repeat split.
    + apply HD; [apply L; simpl; tauto | reflexivity | reflexivity].
    + apply HP; [apply L; simpl; tauto | reflexivity].
    + apply HP; [apply L; simpl; tauto | reflexivity].
  - vm_compute in E. discriminate E.
Defined.

Lemma X11_witness :
  free_key "idgoal" (trk site1_full) = true
  /\ exists q w',
       @_get_request sample_runtime (VInt 1) site1_full = (Ok q, w')
       /\ PyDict.get "idgoal" q = Some (VInt 3)
       /\ PyDict.get "revenue" q = Some (VInt 50)
       /\ PyDict.get "debug" q = None.
Proof.
  split; [reflexivity|].
  destruct (@_get_request sample_runtime (VInt 1) site1_full) as [[q|e] w'] eqn:E.
  - exists q, w'. split; [reflexivity|].
    exact (@X11_goal_and_debug_keys sample_runtime (VInt 1) site1_full q w'
             eq_refl eq_refl eq_refl E).
  - vm_compute in E. discriminate E.
Defined.

Lemma X12_witness :
  exists q w',
    @_get_request sample_runtime (VInt 1)
      (exec (set_track_goal (VInt 2) VNone)
         (exec (set_track_goal (VInt 1) (VInt 50)) site1_url_referer)) = (Ok q, w')
    /\ carries "idgoal" (VInt 2) q /\ carries "revenue" (VInt 50) q.
Proof.
  destruct (@_get_request sample_runtime (VInt 1)
              (exec (set_track_goal (VInt 2) VNone)
                 (exec (set_track_goal (VInt 1) (VInt 50)) site1_url_referer)))
    as [[q|e] w'] eqn:E.
  - exists q, w'. split; [reflexivity|].
    exact (@X12_goal_inherits_revenue sample_runtime (VInt 1) site1_url_referer
             (VInt 1) (VInt 50) (VInt 2) q w' eq_refl eq_refl eq_refl eq_refl eq_refl E).
  - vm_compute in E. discriminate E.
Defined.

(** ** Custom variables, product views, items *)

Lemma len_set {K V} `{Key K} (k : K) (v : V) (d : pydict K V) :
  PyDict.len (PyDict.set k v d)
  = if PyDict.mem k d then PyDict.len d else PyDict.len d + 1.
Proof.
  unfold PyDict.len, PyDict.mem.
  induction d as [|[k0 v0] d IH]; simpl; [reflexivity|].
  destruct (key_eqb k k0); simpl; [reflexivity|].
  destruct (PyDict.get k d); simpl in *; lia.
Qed.

Section Variables.
Context {R : Runtime}.

Lemma get_custom_variable_result (w : world) (slot : Z) (scope : pyval) :
  fst (get_custom_variable slot scope w)
  = if known_scope scope
    then Ok (slot_value slot (scope_map scope (trk w)))
    else Raise InvalidParameter.
Proof.
  unfold get_custom_variable, known_scope, scope_map, slot_value.
  cbv [bind gets ret raise].
  destruct (str_eq scope "visit"); [|destruct (str_eq scope "event");
                                     [|destruct (str_eq scope "page")]];
    cbn [orb]; try reflexivity;
    unfold PyDict.mem;
    match goal with |- context [PyDict.get slot ?m] => destruct (PyDict.get slot m) end;
    reflexivity.
Qed.

(** X13: get_custom_variable never changes the state and never raises a
    key error: for the scopes visit, event and page it returns the pair
    stored at the slot, or [None] for a slot that holds nothing; for every
    other scope it raises the invalid-parameter error. *)
Theorem X13_get_custom_variable (w : world) (slot : Z) (scope : pyval) :
  get_custom_variable slot scope w
  = (if known_scope scope
     then Ok (slot_value slot (scope_map scope (trk w)))
     else Raise InvalidParameter,
     w).
Proof.
  unfold get_custom_variable, known_scope, scope_map, slot_value.
  cbv [bind gets ret raise].
  destruct (str_eq scope "visit"); [|destruct (str_eq scope "event");
                                     [|destruct (str_eq scope "page")]];
    cbn [orb]; try reflexivity;
    unfold PyDict.mem;
    match goal with |- context [PyDict.get slot ?m] => destruct (PyDict.get slot m) end;
    reflexivity.
Qed.

(** X14: a page-scope variable set with set_custom_variable is read back
    by get_custom_variable at its slot; the other page slots read as
    before, and so do the visit and event scopes. *)
Theorem X14_page_variable_round_trip (w : world) (slot : Z) (name value : pyval) :
  let w1 := exec (set_custom_variable (VInt slot) name value (VStr "page")) w in
  get_custom_variable slot (VStr "page") w1 = (Ok (VTuple [name; value]), w1)
  /\ (forall other, other <> slot ->
        fst (get_custom_variable other (VStr "page") w1)
        = fst (get_custom_variable other (VStr "page") w))
  /\ (forall other scope, str_eq scope "page" = false ->
        fst (get_custom_variable other scope w1)
        = fst (get_custom_variable other scope w)).
Proof.
  intro w1.
  assert (T : trk w1 = assign_page_custom_var
                         (PyDict.set slot (name, value) (page_custom_var (trk w))) (trk w))
    by reflexivity.
  repeat split.
  - pose proof (get_custom_variable_result w1 slot (VStr "page")) as H.
    cbn [known_scope str_eq String.eqb Ascii.eqb Bool.eqb orb scope_map] in H.
    rewrite T in H. cbn [page_custom_var assign_page_custom_var] in H.
    unfold slot_value in H. rewrite PyDictFacts.get_set_eq in H. cbn [fst snd] in H.
    destruct (get_custom_variable slot (VStr "page") w1) as [r w2] eqn:E.
    assert (W : w2 = w1).
    { pose proof (f_equal snd E) as E2. cbn [snd] in E2. rewrite <- E2.
      unfold get_custom_variable. cbv [bind gets ret raise str_eq].
      cbn [String.eqb Ascii.eqb Bool.eqb].
      unfold PyDict.mem. destruct (PyDict.get slot (page_custom_var (trk w1))); reflexivity. }
    cbn [fst] in H. now subst.
  - intros other Hne.
    rewrite !get_custom_variable_result.
    cbn [known_scope str_eq String.eqb Ascii.eqb Bool.eqb orb scope_map].
    rewrite T. cbn [page_custom_var assign_page_custom_var].
    unfold slot_value. now rewrite PyDictFacts.get_set_ne by congruence.
  - intros other scope Hs.
    rewrite !get_custom_variable_result. unfold scope_map, known_scope.
    rewrite T, Hs.
    destruct (str_eq scope "visit"); [reflexivity|].
    destruct (str_eq scope "event"); reflexivity.
Qed.

(** a product view stores at most the page slots 2 to 5 *)
Lemma store_page_var_get (slot other : Z) (name value : pyval) (w : world) :
  PyDict.get other (page_custom_var (trk (snd (store_page_var slot name value w))))
  = if (slot =? other) then Some (name, value)
    else PyDict.get other (page_custom_var (trk w)).
Proof.
  unfold store_page_var, modify, with_trk. cbn.
  destruct (Z.eqb_spec slot other) as [->|Hne].
  - apply PyDictFacts.get_set_eq.
  - now apply PyDictFacts.get_set_ne.
Qed.

(** X15: set_ecommerce_view returns True unless the category is a list the
    encoder rejects, in which case it raises a type error and changes
    nothing. When it returns, page slot 5 holds ("_pkc", category), with
    the empty string for a missing or falsy category, so an earlier
    category is overwritten; slot 2 holds ("_pkp", price) only for a
    truthy price (a price of 0 is not recorded); slots 3 and 4 hold
    ("_pks", sku) and ("_pkn", name) only when both are truthy, otherwise
    both stay as they were; every other page slot, the visit and event
    scopes and the log of requests stay as they were. *)
Theorem X15_ecommerce_view (w : world) (sku name category price : pyval) :
  match view_category category with
  | None => set_ecommerce_view sku name category price w = (Raise TypeError, w)
  | Some c =>
      exists w1,
        set_ecommerce_view sku name category price w = (Ok (VBool true), w1)
        /\ PyDict.get 5 (page_custom_var (trk w1)) = Some (VStr "_pkc", c)
        /\ PyDict.get 2 (page_custom_var (trk w1))
           = (if truthy price then Some (VStr "_pkp", price)
              else PyDict.get 2 (page_custom_var (trk w)))
        /\ PyDict.get 3 (page_custom_var (trk w1))
           = (if truthy sku && truthy name then Some (VStr "_pks", sku)
              else PyDict.get 3 (page_custom_var (trk w)))
        /\ PyDict.get 4 (page_custom_var (trk w1))
           = (if truthy sku && truthy name then Some (VStr "_pkn", name)
              else PyDict.get 4 (page_custom_var (trk w)))
        /\ (forall slot, ~ In slot [2; 3; 4; 5] ->
              PyDict.get slot (page_custom_var (trk w1))
              = PyDict.get slot (page_custom_var (trk w)))
        /\ visitor_custom_var (trk w1) = visitor_custom_var (trk w)
        /\ event_custom_var (trk w1) = event_custom_var (trk w)
        /\ sent w1 = sent w
  end.
Proof.
  unfold view_category, set_ecommerce_view, dumps.
  destruct (truthy category) eqn:Tc;
    [destruct category; try discriminate Tc;
     try destruct (json_dumps (VList l)) as [j|]|];
    cbn [option_map]; try reflexivity;
    destruct (truthy price), (truthy sku), (truthy name);
    (eexists; split; [reflexivity|]);
    cbn [andb trk sent snd page_custom_var visitor_custom_var event_custom_var
         with_trk assign_page_custom_var];
    repeat split;
    try (intros slot Hs;
         repeat rewrite PyDictFacts.get_set_ne
           by (intro; subst; apply Hs; simpl; tauto);
         reflexivity);
    repeat rewrite PyDictFacts.get_set_ne by discriminate;
    first [ apply PyDictFacts.get_set_eq | reflexivity ].
Qed.
End Variables.

Lemma X14_witness :
  let w1 := exec (set_custom_variable (VInt 1) (VStr "n") (VStr "v") (VStr "page"))
              (fresh (VInt 1)) in
  2 <> 1
  /\ fst (get_custom_variable 1 (VStr "page") w1) = Ok (VTuple [VStr "n"; VStr "v"])
  /\ fst (get_custom_variable 2 (VStr "page") w1) = Ok VNone.
Proof.
  intro w1. split; [discriminate|].
  destruct (X14_page_variable_round_trip (fresh (VInt 1)) 1 (VStr "n") (VStr "v"))
    as (H1 & H2 & _).
  fold w1 in H1, H2. split.
  - now rewrite H1.
  - rewrite (H2 2 ltac:(discriminate)). reflexivity.
Defined.

Lemma X15_witness :
  exists w1,
    @set_ecommerce_view sample_runtime (VStr "SKU1") VNone (VStr "Widgets") (VInt 0)
      (fresh (VInt 1)) = (Ok (VBool true), w1)
    /\ PyDict.get 5 (page_custom_var (trk w1)) = Some (VStr "_pkc", VStr "Widgets")
    /\ PyDict.get 2 (page_custom_var (trk w1)) = None
    /\ PyDict.get 3 (page_custom_var (trk w1)) = None
    /\ (~ In 1 [2; 3; 4; 5] -> PyDict.get 1 (page_custom_var (trk w1)) = None).
Proof.
  pose proof (@X15_ecommerce_view sample_runtime (fresh (VInt 1))
                (VStr "SKU1") VNone (VStr "Widgets") (VInt 0)) as H.
  cbn [view_category truthy negb String.eqb Ascii.eqb Bool.eqb] in H.
  destruct H as (w1 & E & H5 & H2 & H3 & _ & Hs & _).
  exists w1. repeat split; try assumption.
  intro N. now rewrite (Hs 1 N).
Defined.

(** ** Items and plugins *)

Section ItemsAndPlugins.
Context {R : Runtime}.

(** X16: add_ecommerce_item files the item under its SKU as the tuple
    (sku, name, category, price, quantity): an item with a new SKU makes
    the collection one longer, an item with an SKU already present
    replaces the earlier one and keeps the length; the items under other
    SKUs stay as they were. *)
Theorem X16_add_ecommerce_item (w : world) (sku : string)
    (name category price quantity : pyval) :
  let items := ecommerce_items (trk w) in
  let items1 := ecommerce_items
                  (trk (exec (add_ecommerce_item sku name category price quantity) w)) in
  PyDict.get sku items1 = Some (VTuple [VStr sku; name; category; price; quantity])
  /\ (forall other, other <> sku -> PyDict.get other items1 = PyDict.get other items)
  /\ PyDict.len items1
     = (if PyDict.mem sku items then PyDict.len items else PyDict.len items + 1).
Proof.
  intros items items1. subst items items1.
  unfold exec, add_ecommerce_item, bind, modify, with_trk.
  cbn [fst snd trk ecommerce_items assign_ecommerce_items ret].
  repeat split.
  - apply PyDictFacts.get_set_eq.
  - intros other Hne. apply PyDictFacts.get_set_ne. congruence.
  - apply len_set.
Qed.

Lemma get_in_values {V} (k : string) (v : V) (d : pydict string V) :
  PyDict.get k d = Some v -> In v (PyDict.values d).
Proof.
  induction d as [|[k0 v0] d IH]; simpl; [discriminate|].
  destruct (k =? k0)%string; [intro E; inversion E; now left | intro E; right; auto].
Qed.

Lemma mem_set_inv {V} (k k' : string) (v : V) (d : pydict string V) :
  PyDict.mem k' (PyDict.set k v d) = true -> k' = k \/ PyDict.mem k' d = true.
Proof.
  destruct (String.eqb_spec k k') as [->|Hne]; [now left|].
  rewrite PyDictFacts.mem_set_ne by assumption. now right.
Qed.

Lemma set_plugins_state kwargs w :
  snd (set_plugins kwargs w) = snd (set_plugins_loop kwargs w).
Proof.
  unfold set_plugins, bind. destruct (set_plugins_loop kwargs w) as [[[]|e] w1]; reflexivity.
Qed.

Lemma set_plugins_loop_unknown p v rest w :
  PyDict.mem p KNOWN_PLUGINS = false ->
  set_plugins_loop ((p, v) :: rest) w = (Raise ConfigurationError, w).
Proof. intro H. cbn [set_plugins_loop]. now rewrite H. Qed.

(** X17: set_plugins keeps the plugin mapping within the whitelist: if
    every key of the mapping is a short code of a known plugin before the
    call, this is so after the call too, whether the call returns or
    raises; the constructor starts with the empty mapping. *)
Theorem X17_plugins_stay_whitelisted (kwargs : list (string * Z)) (w : world) :
  plugins_whitelisted (trk w) ->
  plugins_whitelisted (trk (exec (set_plugins kwargs) w)).
Proof.
  unfold exec. rewrite set_plugins_state. revert w.
  induction kwargs as [|[p v] rest IH]; intros w Hw; [exact Hw|].
  destruct (PyDict.mem p KNOWN_PLUGINS) eqn:Hm.
  - destruct (mem_known_getitem p Hm) as (code & Hc).
    rewrite (set_plugins_loop_known p v rest code w Hm Hc).
    apply IH. intros k Hk. cbn [trk with_trk plugins assign_plugins] in Hk.
    apply mem_set_inv in Hk. destruct Hk as [-> | Hk]; [|now apply Hw].
    unfold getitem in Hc.
    destruct (PyDict.get p KNOWN_PLUGINS) as [c|] eqn:G; [|discriminate].
    inversion Hc; subst c. exact (get_in_values p code KNOWN_PLUGINS G).
  - now rewrite set_plugins_loop_unknown.
Qed.

Lemma known_codes_injective p p' code :
  PyDict.get p KNOWN_PLUGINS = Some code ->
  PyDict.get p' KNOWN_PLUGINS = Some code -> p = p'.
Proof.
  unfold KNOWN_PLUGINS. cbn [PyDict.get key_eqb string_Key].
  repeat match goal with
         | |- context [(p =? ?s)%string] => destruct (String.eqb_spec p s)
         end;
    try discriminate; intro E; inversion E; subst;
    repeat match goal with
           | |- context [(p' =? ?s)%string] => destruct (String.eqb_spec p' s)
           end;
    try discriminate; congruence.
Qed.

Lemma stored_plugins_frame kwargs code (P : pydict string Z) :
  (forall kv, In kv kwargs -> PyDict.get (fst kv) KNOWN_PLUGINS <> Some code) ->
  PyDict.get code (stored_plugins kwargs P) = PyDict.get code P.
Proof.
  unfold stored_plugins. revert P.
  induction kwargs as [|[p v] rest IH]; intros P H; [reflexivity|].
  cbn [fold_left fst snd].
  rewrite IH by (intros kv Hin; apply H; now right).
  destruct (PyDict.get p KNOWN_PLUGINS) as [c|] eqn:G; [|reflexivity].
  apply PyDictFacts.get_set_ne. intros ->. apply (H (p, v)); [now left | exact G].
Qed.

Lemma stored_plugins_lookup kwargs p v code (P : pydict string Z) :
  NoDup (map fst kwargs) -> In (p, v) kwargs ->
  PyDict.get p KNOWN_PLUGINS = Some code ->
  PyDict.get code (stored_plugins kwargs P) = Some v.
Proof.
  revert P. induction kwargs as [|[p0 v0] rest IH]; intros P ND Hin G; [contradiction|].
  cbn [map fst] in ND. inversion ND as [|? ? Hnot ND']; subst.
  destruct Hin as [E | Hin].
  - inversion E; subst p0 v0. unfold stored_plugins. cbn [fold_left fst snd].
    rewrite G. fold (stored_plugins rest (PyDict.set code v P)).
    rewrite stored_plugins_frame; [apply PyDictFacts.get_set_eq|].
    intros kv Hkv G'. apply Hnot.
    rewrite (known_codes_injective p (fst kv) code G G').
    now apply in_map.
  - unfold stored_plugins. cbn [fold_left]. now apply IH.
Qed.

Lemma set_plugins_loop_stores kwargs w :
  (forall kv, In kv kwargs -> PyDict.mem (fst kv) KNOWN_PLUGINS = true) ->
  set_plugins_loop kwargs w
  = (Ok tt, with_trk (assign_plugins (stored_plugins kwargs (plugins (trk w)))) w).
Proof.
  revert w. induction kwargs as [|[p v] rest IH]; intros w Hk.
  - destruct w as [t n l]; destruct t; reflexivity.
  - assert (Hm : PyDict.mem p KNOWN_PLUGINS = true) by (apply (Hk (p, v)); now left).
    destruct (mem_known_getitem p Hm) as (code & Hc).
    rewrite (set_plugins_loop_known p v rest code w Hm Hc).
    rewrite IH by (intros kv Hin; apply Hk; now right).
    unfold stored_plugins. cbn [fold_left fst snd].
    unfold getitem in Hc. destruct (PyDict.get p KNOWN_PLUGINS) as [c|]; [|discriminate].
    inversion Hc; subst c. reflexivity.
Qed.

End ItemsAndPlugins.

Lemma X16_witness :
  let w := exec add_widget (fresh (VInt 1)) in
  let items1 := ecommerce_items
                  (trk (exec (add_ecommerce_item "SKU1" (VStr "Gadget") VNone (VInt 5)
                                (VInt 2)) w)) in
  "SKU2" <> "SKU1"
  /\ PyDict.get "SKU1" items1
     = Some (VTuple [VStr "SKU1"; VStr "Gadget"; VNone; VInt 5; VInt 2])
  /\ PyDict.get "SKU2" items1 = None
  /\ PyDict.len items1 = 1.
Proof.
  intros w items1. split; [discriminate|].
  destruct (X16_add_ecommerce_item w "SKU1" (VStr "Gadget") VNone (VInt 5) (VInt 2))
    as (H1 & H2 & H3).
  fold items1 in H1, H2, H3. split; [exact H1|]. split.
  - rewrite (H2 "SKU2" ltac:(discriminate)). reflexivity.
  - rewrite H3. reflexivity.
Defined.

Lemma X17_witness :
  plugins_whitelisted (trk (fresh (VInt 1)))
  /\ plugins_whitelisted
       (trk (exec (set_plugins [("flash", 1); ("bogus", 2); ("java", 6)]) (fresh (VInt 1)))).
Proof.
  assert (H : plugins_whitelisted (trk (fresh (VInt 1)))).
  { intros k Hk. discriminate Hk. }
  split; [exact H|].
  exact (X17_plugins_stay_whitelisted [("flash", 1); ("bogus", 2); ("java", 6)]
           (fresh (VInt 1)) H).
Defined.


(** ** Transport and the tracking operations *)

Section TransportFacts.
Context {R : Runtime}.

(** X19: a failure of the transport is not caught: when the API URL is set
    and the transport raises on the prepared request, _send_request raises
    the same exception, the request having been handed over once; and so
    does execute when the serialization returns. *)
Theorem X19_transport_failure_propagates (w : world) (qv : urlval) (e : exn) :
  is_not_none (api_url (trk w)) = true ->
  perform_get (prepare_request qv (trk w)) = Raise e ->
  (exists w', _send_request qv w = (Raise e, w')
              /\ trk w' = trk w
              /\ sent w' = (sent w ++ [prepare_request qv (trk w)])%list)
  /\ (forall q w1,
        qv = UDict q ->
        _get_request (id_site (trk w)) w = (Ok q, w1) ->
        exists w', execute w = (Raise e, w')
                   /\ sent w' = (sent w ++ [prepare_request qv (trk w)])%list).
Proof.
  intros Hurl Hfail. split.
  - unfold _send_request. cbv [bind gets session_send]. rewrite Hurl, Hfail.
    cbn [negb]. eexists. split; [reflexivity|]. split; reflexivity.
  - intros q w1 -> E.
    pose proof (_get_request_trk (id_site (trk w)) w) as Ht.
    pose proof (_get_request_sent (id_site (trk w)) w) as Hs.
    rewrite E in Ht, Hs. cbn [snd] in Ht, Hs.
    unfold execute, _send_request. cbv [bind gets]. rewrite E.
    rewrite Ht, Hurl. cbv [negb session_send]. rewrite Hfail, Hs.
    eexists. split; reflexivity.
Qed.

(** X20: cookies leave the program only while cookie support is on: with
    support on, the prepared request carries exactly the cookie bag given
    to set_request_cookie (nothing for [None]); once disable_cookie_support
    has been called, the request carries no cookie, whatever bag was or is
    then given. *)
Theorem X20_cookies_forwarded (w : world) (qv : urlval)
    (bag : option (pydict string pyval)) :
  (cookie_support (trk w) = true ->
   req_cookies (prepare_request qv (trk (exec (set_request_cookie bag) w)))
   = match bag with Some c => c | None => [] end)
  /\ req_cookies
       (prepare_request qv (trk (exec (set_request_cookie bag)
                                   (exec disable_cookie_support w)))) = []
  /\ req_cookies
       (prepare_request qv (trk (exec disable_cookie_support
                                   (exec (set_request_cookie bag) w)))) = [].
Proof.
  repeat split.
  - intro Hs. unfold prepare_request, exec, set_request_cookie, bind, modify, with_trk.
    cbn [fst snd trk req_cookies cookie_support request_cookies assign_request_cookies ret].
    rewrite Hs. destruct bag as [[|kv c]|]; reflexivity.
Qed.

End TransportFacts.

Lemma X19_witness :
  is_not_none (api_url (trk site1_ready)) = true
  /\ @perform_get offline_runtime
       (@prepare_request (UDict [("idsite", VInt 1)]) (trk site1_ready))
     = Raise TransportFailure
  /\ exists w',
       @_send_request offline_runtime (UDict [("idsite", VInt 1)]) site1_ready
       = (Raise TransportFailure, w')
       /\ length (sent w') = 1%nat.
Proof.
  split; [reflexivity|]. split; [reflexivity|].
  destruct (proj1 (@X19_transport_failure_propagates offline_runtime site1_ready
                     (UDict [("idsite", VInt 1)]) TransportFailure eq_refl eq_refl))
    as (w' & E & _ & Hs).
  exists w'. split; [exact E|]. now rewrite Hs.
Defined.

Lemma X20_witness :
  cookie_support (trk (fresh (VInt 1))) = true
  /\ req_cookies
       (prepare_request (UDict [])
          (trk (exec (set_request_cookie (Some [("_pk_id", VStr "abc")]))
                  (fresh (VInt 1)))))
     = [("_pk_id", VStr "abc")].
Proof.
  split; [reflexivity|].
  exact (proj1 (X20_cookies_forwarded (fresh (VInt 1)) (UDict [])
                  (Some [("_pk_id", VStr "abc")])) eq_refl).
Defined.


(** ** What the failing operations leave behind *)

Section Aftermath.
Context {R : Runtime}.

Lemma track_site_search_trk s c n : preserves trk (__get_url_track_site_search s c n).
Proof. unfold __get_url_track_site_search. frame. Qed.

Lemma track_action_trk u a : preserves trk (__get_url_track_action u a).
Proof. unfold __get_url_track_action. frame. Qed.

Lemma raised_state {A B} (m : Py world A) (k : A -> Py world B) w P :
  raises_before_transport m w P -> snd (bind m k w) = snd (m w).
Proof. intros (e & w' & E & _). unfold bind. now rewrite E. Qed.

(** X22: do_track_site_search, do_track_action and do_track_content never
    change the tracker and never send a request, whatever their arguments
    and the state. *)
Theorem X22_failed_operations_leave_tracker (w : world) :
  (forall s c n,
      trk (snd (do_track_site_search s c n w)) = trk w
      /\ sent (snd (do_track_site_search s c n w)) = sent w)
  /\ (forall u a,
        trk (snd (do_track_action u a w)) = trk w
        /\ sent (snd (do_track_action u a w)) = sent w)
  /\ (forall n p x i,
        trk (snd (do_track_content n p x i w)) = trk w
        /\ sent (snd (do_track_content n p x i w)) = sent w).
Proof.
  repeat split.
  - unfold do_track_site_search.
    rewrite (raised_state _ _ w _ (track_site_search_fails s c n w)).
    apply track_site_search_trk.
  - unfold do_track_site_search.
    rewrite (raised_state _ _ w _ (track_site_search_fails s c n w)).
    apply track_site_search_sent.
  - destruct (legal_action a) eqn:Ha.
    + rewrite (do_track_action_legal u a Ha).
      rewrite (raised_state _ _ w _ (track_action_fails u a w)).
      apply track_action_trk.
    + now rewrite (do_track_action_illegal u a w Ha).
  - destruct (legal_action a) eqn:Ha.
    + rewrite (do_track_action_legal u a Ha).
      rewrite (raised_state _ _ w _ (track_action_fails u a w)).
      apply track_action_sent.
    + now rewrite (do_track_action_illegal u a w Ha).
Qed.

Lemma track_ecommerce_aftermath g s x h d w :
  exists e w',
    __get_url_track_ecommerce g s x h d w = (Raise e, w')
    /\ (trk w' = trk w \/ trk w' = assign_ecommerce_items [] (trk w))
    /\ sent w' = sent w
    /\ (forall q w1,
          _get_request (id_site (trk w)) w = (Ok q, w1) ->
          (ecommerce_items (trk w) = []
           \/ exists j, json_dumps (VList (PyDict.values (ecommerce_items (trk w))))
                        = Some j) ->
          e = TypeError /\ trk w' = assign_ecommerce_items [] (trk w)).
Proof.
  unfold __get_url_track_ecommerce. cbv [bind gets].
  pose proof (_get_request_trk (id_site (trk w)) w) as Ht.
  pose proof (_get_request_sent (id_site (trk w)) w) as Hs.
  destruct (_get_request (id_site (trk w)) w) as [[q|e] w1]; cbn [snd] in Ht, Hs.
  - cbv [lift ret modify dumps iadd_str with_trk].
    destruct (0 <? PyDict.len (ecommerce_items (trk w))) eqn:Hlen.
    + destruct (json_dumps (VList (PyDict.values (ecommerce_items (trk w))))) as [j|] eqn:Hj.
      * eexists. eexists. split; [reflexivity|]. cbn [trk sent]. rewrite Ht.
        split; [now right|]. split; [exact Hs|]. intros; split; reflexivity.
      * eexists. eexists. split; [reflexivity|].
        split; [now left|]. split; [exact Hs|]. intros q' w1' _ [Hnil | (j & Hj')].
        -- rewrite Hnil in Hlen. discriminate Hlen.
        -- discriminate Hj'.
    + eexists. eexists. split; [reflexivity|]. cbn [trk sent]. rewrite Ht.
      split; [now right|]. split; [exact Hs|]. intros; split; reflexivity.
  - exists e, w1. split; [reflexivity|]. split; [now left|]. split; [exact Hs|].
    intros q w2 E. discriminate E.
Qed.

(** X23: do_track_ecommerce_order and do_track_ecommerce_cart_update never
    return and never send a request; afterwards the tracker is either as it
    was or as it was with the item collection emptied, so the time of the
    last order is never recorded. When the serialization returns and the
    items are none or JSON-encodable, the exception is a type error and the
    collection has been emptied. *)
Theorem X23_ecommerce_aftermath (w : world) (o g s x h d : pyval) :
  let emptied := assign_ecommerce_items [] (trk w) in
  let encodable :=
    ecommerce_items (trk w) = []
    \/ exists j, json_dumps (VList (PyDict.values (ecommerce_items (trk w)))) = Some j in
  (exists e w',
      do_track_ecommerce_order o g s x h d w = (Raise e, w')
      /\ (trk w' = trk w \/ trk w' = emptied)
      /\ ecommerce_last_order_timestamp (trk w') = ecommerce_last_order_timestamp (trk w)
      /\ sent w' = sent w
      /\ (serializes w -> encodable -> e = TypeError /\ trk w' = emptied))
  /\ (exists e w',
        do_track_ecommerce_cart_update g w = (Raise e, w')
        /\ (trk w' = trk w \/ trk w' = emptied)
        /\ sent w' = sent w
        /\ (serializes w -> encodable -> e = TypeError /\ trk w' = emptied)).
Proof.
  intros emptied encodable. split.
  - destruct (track_ecommerce_aftermath g s x h d w) as (e & w' & E & Ht & Hs & Hok).
    exists e, w'. split.
    { unfold do_track_ecommerce_order, __get_url_track_ecommerce_order.
      do 2 apply bind_raise. exact E. }
    split; [exact Ht|]. split; [destruct Ht as [-> | ->]; reflexivity|].
    split; [exact Hs|]. intros (q & w1 & Eq) He. exact (Hok q w1 Eq He).
  - destruct (track_ecommerce_aftermath g (VBool false) (VBool false) (VBool false)
                (VBool false) w) as (e & w' & E & Ht & Hs & Hok).
    exists e, w'. split.
    { unfold do_track_ecommerce_cart_update, __get_url_track_ecommerce_cart_update.
      do 2 apply bind_raise. exact E. }
    split; [exact Ht|]. split; [exact Hs|].
    intros (q & w1 & Eq) He. exact (Hok q w1 Eq He).
Qed.

(** X24: when the API URL is set and the serialization returns a mapping
    in which no custom dimension or plugin entry is keyed rand, execute
    leaves the tracker as it was, advances the random generator by exactly
    one output and hands exactly one request to the transport, whose rand
    parameter is that output brought into 0..99999: consecutive requests
    carry consecutive outputs of the generator. *)
Theorem X24_execute_one_request (w : world) (q : query) (w1 : world) :
  is_not_none (api_url (trk w)) = true ->
  free_key "rand" (trk w) = true ->
  _get_request (id_site (trk w)) w = (Ok q, w1) ->
  exists r w2,
    execute w = (r, w2)
    /\ trk w2 = trk w
    /\ rng_pos w2 = S (rng_pos w)
    /\ sent w2 = (sent w ++ [prepare_request (UDict q) (trk w)])%list
    /\ carries "rand" (VInt (draws (rng_pos w) mod 100000)) q.
Proof.
  intros Hurl Hfree E.
  pose proof (_get_request_trk (id_site (trk w)) w) as Ht.
  pose proof (_get_request_sent (id_site (trk w)) w) as Hs.
  pose proof (_get_request_draws_once (id_site (trk w)) w) as Hr.
  rewrite E in Ht, Hs, Hr. cbn [snd] in Ht, Hs, Hr.
  assert (Hrand : carries "rand" (VInt (draws (rng_pos w) mod 100000)) q).
  { refine (post_elim _ _ _ q w1
              (base_key_kept "rand" (fun r => VInt r) (id_site (trk w)) w _ Hfree) E).
    simpl. tauto. }
  unfold execute, _send_request. cbv [bind gets]. rewrite E.
  rewrite Ht, Hurl. cbv [negb session_send].
  destruct (perform_get (prepare_request (UDict q) (trk w))) as [resp|e];
    eexists; eexists; (split; [reflexivity|]); cbn [trk rng_pos sent];
    rewrite Hs; repeat split; assumption.
Qed.
End Aftermath.

Lemma X23_witness :
  let w := cart_with_referer in
  @serializes sample_runtime w
  /\ (exists j, @json_dumps sample_runtime
                  (VList (PyDict.values (ecommerce_items (trk w)))) = Some j)
  /\ exists w',
       @order1 sample_runtime w = (Raise TypeError, w')
       /\ ecommerce_items (trk w') = []
       /\ ecommerce_last_order_timestamp (trk w') = None.
Proof.
  intro w.
  assert (S : @serializes sample_runtime w).
  { unfold serializes. eexists. eexists. vm_compute. reflexivity. }
  assert (J : exists j, @json_dumps sample_runtime
                          (VList (PyDict.values (ecommerce_items (trk w)))) = Some j).
  { eexists. reflexivity. }
  split; [exact S|]. split; [exact J|].
  destruct (proj1 (@X23_ecommerce_aftermath sample_runtime w (VStr "ORDER1") (VInt 100)
                     (VInt 80) (VBool false) (VBool false) (VBool false)))
    as (e & w' & E & _ & Hts & _ & Hok).
  destruct (Hok S (or_intror J)) as [-> Ht].
  exists w'. split; [exact E|]. split.
  - now rewrite Ht.
  - rewrite Hts. reflexivity.
Defined.

Lemma X24_witness :
  is_not_none (api_url (trk site1_ready)) = true
  /\ free_key "rand" (trk site1_ready) = true
  /\ exists q w1 r w2,
       @_get_request sample_runtime (VInt 1) site1_ready = (Ok q, w1)
       /\ @execute sample_runtime site1_ready = (r, w2)
       /\ rng_pos w2 = 1%nat
       /\ length (sent w2) = 1%nat
       /\ carries "rand" (VInt 4242) q.
Proof.
  split; [reflexivity|]. split; [reflexivity|].
  destruct (@_get_request sample_runtime (VInt 1) site1_ready) as [[q|e] w1] eqn:E.
  - destruct (@X24_execute_one_request sample_runtime site1_ready q w1 eq_refl eq_refl E)
      as (r & w2 & Ex & _ & Hr & Hs & Hc).
    exists q, w1, r, w2. split; [reflexivity|]. split; [exact Ex|].
    split; [exact Hr|]. split; [now rewrite Hs | exact Hc].
  - vm_compute in E. discriminate E.
Defined.
